(** * Cart store of the cafe bot: a shallow embedding of
      [enhanced_cart_manager.py] (class [CartManager]) and its properties.

    The Python class keeps [self.carts], a dict from user ids to cart dicts.
    [get_cart] hands out the stored dict object itself, so a method that
    writes into the dict it got from [get_cart] writes into the store.  The
    embedding therefore has a heap of cart objects and references to them. *)

From stdpp Require Import base option list gmap strings fin_maps.
From Stdlib Require Import ZArith Lia.

Set Warnings "-register-all".

Open Scope Z_scope.

(** ** Data *)

(** A Telegram user id is a Python int ([Z]), an item id a str, a quantity
    an int ([Z]), a timestamp the str that [isoformat] returns.  A reference
    to a cart dict object is a [positive].

    The items dict is a [gmap]: it forgets the insertion order in which a
    Python dict iterates.  Only [get_cart_item_count] (a sum) and
    [get_cart_total] iterate over it, and neither result depends on the
    order. *)

(** A cart is a Python dict with the keys ['items'], ['created_at'] and
    ['updated_at'], each of which may be missing (the code tests
    ['items' not in cart] and ['created_at' not in cart]).  The items dict is
    owned by its cart: no code path stores it anywhere else. *)
Record Cart := mkCart {
  items : option (gmap string Z);
  created_at : option string;
  updated_at : option string
}.

(** The dict [{}]: what reading a reference gives when nothing is there.  A
    reference held by the store always points to an object ([store_ok]). *)
Definition empty_dict : Cart := mkCart None None None.

Global Instance Cart_inhabited : Inhabited Cart := populate empty_dict.

Definition set_items (v : gmap string Z) (c : Cart) : Cart :=
  mkCart (Some v) (created_at c) (updated_at c).
Definition set_created_at (t : string) (c : Cart) : Cart :=
  mkCart (items c) (Some t) (updated_at c).
Definition set_updated_at (t : string) (c : Cart) : Cart :=
  mkCart (items c) (created_at c) (Some t).

(** [cart.get('items', {})] *)
Definition items_or_empty (c : Cart) : gmap string Z := default ∅ (items c).

(** The state of a [CartManager] and of the part of the Python heap it uses:
    [carts] is [self.carts], [heap] holds the cart dicts, [ticks] counts the
    readings of the clock made so far. *)
Record State := mkState {
  carts : gmap Z positive;
  heap : gmap positive Cart;
  ticks : nat
}.

(** [CartManager.__init__]: [self.carts = {}]. *)
Definition init : State := mkState ∅ ∅ 0.

(** Python exceptions that the modelled code can raise. *)
Inductive exn := AttributeError | KeyError.

Inductive Outcome (A : Type) :=
| Value (a : A)
| Raised (e : exn).
Arguments Value {A} a.
Arguments Raised {A} e.

(** ** The monad of the methods: state and exceptions.  A raised exception
    keeps the writes made before it, as in Python. *)
Definition M (A : Type) : Type := State → Outcome A * State.

Definition ret {A} (a : A) : M A := λ s, (Value a, s).

Definition bind {A B} (m : M A) (k : A → M B) : M B :=
  λ s, match m s with
       | (Value a, s') => k a s'
       | (Raised e, s') => (Raised e, s')
       end.

Notation "x <- m ;; k" := (bind m (λ x, k))
  (at level 100, m at next level, right associativity).
Notation "m ;;; k" := (bind m (λ _, k))
  (at level 100, right associativity).

Definition raise {A} (e : exn) : M A := λ s, (Raised e, s).

(** [try: body  except Exception: handler] *)
Definition try_catch {A} (body handler : M A) : M A :=
  λ s, match body s with
       | (Value a, s') => (Value a, s')
       | (Raised _, s') => handler s'
       end.

(** [try: body  except Exception: return fallback] *)
Definition try_except {A} (body : M A) (fallback : A) : M A :=
  λ s, match body s with
       | (Value a, s') => (Value a, s')
       | (Raised _, s') => (Value fallback, s')
       end.

(** What a call returned and the state it left. *)
Definition result {A} (m : M A) (s : State) : Outcome A := (m s).1.
Definition after {A} (m : M A) (s : State) : State := (m s).2.

(** *** Heap and store primitives *)

(** A dict display allocates a new object. *)
Definition new_dict (c : Cart) : M positive :=
  λ s, let l := fresh (dom (heap s)) in
       (Value l, mkState (carts s) (<[l := c]> (heap s)) (ticks s)).

Definition load (l : positive) : M Cart :=
  λ s, (Value (heap s !!! l), s).

(** In-place update of the dict behind a reference. *)
Definition update (l : positive) (f : Cart → Cart) : M unit :=
  λ s, (Value tt, mkState (carts s) (<[l := f (heap s !!! l)]> (heap s)) (ticks s)).

(** [self.carts.get(user_id, d)] *)
Definition carts_get (u : Z) (d : positive) : M positive :=
  λ s, (Value (default d (carts s !! u)), s).

(** [user_id in self.carts] *)
Definition carts_contains (u : Z) : M bool :=
  λ s, (Value (bool_decide (is_Some (carts s !! u))), s).

(** [self.carts[user_id] = cart] *)
Definition carts_set (u : Z) (l : positive) : M unit :=
  λ s, (Value tt, mkState (<[u := l]> (carts s)) (heap s) (ticks s)).

(** [del self.carts[user_id]] *)
Definition carts_del (u : Z) : M unit :=
  λ s, (Value tt, mkState (delete u (carts s)) (heap s) (ticks s)).

(** ['items' in cart] *)
Definition has_items (c : Cart) : bool :=
  match items c with Some _ => true | None => false end.

(** ['created_at' in cart] *)
Definition has_created_at (c : Cart) : bool :=
  match created_at c with Some _ => true | None => false end.

(** [cart['items']], a [KeyError] when the key is missing. *)
Definition subscript_items (cart : positive) : M (gmap string Z) :=
  c <- load cart ;;
  match items c with
  | Some its => ret its
  | None => raise KeyError
  end.

(** [cart['items'][k] = v] *)
Definition items_setitem (cart : positive) (k : string) (v : Z) : M unit :=
  its <- subscript_items cart ;;
  update cart (set_items (<[k := v]> its)).

(** [del cart['items'][k]] *)
Definition items_delitem (cart : positive) (k : string) : M unit :=
  its <- subscript_items cart ;;
  match its !! k with
  | Some _ => update cart (set_items (delete k its))
  | None => raise KeyError
  end.

(** [for x in xs: acc = body x acc], the loop variable [acc] being the local
    that the body reassigns. *)
Fixpoint for_fold {A S} (xs : list A) (acc : S) (body : A → S → M S) : M S :=
  match xs with
  | [] => ret acc
  | x :: xs' => acc' <- body x acc ;; for_fold xs' acc' body
  end.

(** JSON values, the shape of what [load_menu_data] returns ([json.load]).
    A number keeps its literal. *)
Inductive json :=
| JNull
| JBool (b : bool)
| JNumber (lit : string)
| JString (s : string)
| JArray (elems : list json)
| JObject (fields : list (string * json)).

(** [isinstance(v, dict)] *)
Definition is_dict (v : json) : bool :=
  match v with JObject _ => true | _ => false end.

(** [v.items()]: only a dict has the method. *)
Definition dict_items (v : json) : M (list (string * json)) :=
  match v with
  | JObject fields => ret fields
  | _ => raise AttributeError
  end.

(** Iterating over a dict yields its keys. *)
Definition dict_keys (v : json) : list string :=
  match v with
  | JObject fields => fields.*1
  | _ => []
  end.

(** [item.get('id')] for [item] a key of a dict, a [str]: a [str] has no
    attribute [get], the call raises and yields no value. *)
Definition str_get (item : string) (key : string) : M Empty_set :=
  raise AttributeError.

(** ** The store as its callers see it *)

(** For each user that has a cart in [self.carts], the items mapping of that
    cart ([cart.get('items', {})]). *)
Definition view (s : State) : gmap Z (gmap string Z) :=
  (λ l, items_or_empty (heap s !!! l)) <$> carts s.

(** The items mapping a caller reads for a user: empty without a cart. *)
Definition user_items (s : State) (u : Z) : gmap string Z :=
  default ∅ (view s !! u).

(** Well-formed stores: every reference in [self.carts] points to a cart
    object that has the key ['items'], and no two users share an object.  It
    holds of [init] and every method keeps it ([store_ok_init] and the
    [_ok] lemmas), so it holds of every state a [CartManager] reaches. *)
Definition store_ok (s : State) : Prop :=
  map_Forall (λ _ l, is_Some (heap s !! l ≫= items)) (carts s) ∧
  map_Forall (λ u1 l1, map_Forall (λ u2 l2, l1 = l2 → u1 = u2) (carts s)) (carts s).

Global Instance store_ok_dec s : Decision (store_ok s).
Proof. unfold store_ok. apply _. Defined.

(** What [add_item] writes into an items mapping. *)
Definition add_to (its : gmap string Z) (i : string) (q : Z) : gmap string Z :=
  match its !! i with
  | Some q0 => <[i := q0 + q]> its
  | None => <[i := q]> its
  end.

(** Every stored quantity is a positive integer. *)
Definition quantities_positive (s : State) : Prop :=
  map_Forall (λ _ its, map_Forall (λ (_ : string) (q : Z), 0 < q) its) (view s).

Global Instance quantities_positive_dec s : Decision (quantities_positive s).
Proof. unfold quantities_positive. apply _. Defined.

(** ** The class [CartManager] of [add_cart_system.py]

    The same store with a smaller interface: no clock, no capacity and no
    [try]/[except], so an exception leaves the method. *)
Module AddCartSystem.

(** [get_cart]: the default [{'items': {}}] is built on every call. *)
Definition get_cart (user_id : Z) : M positive :=
  d <- new_dict (mkCart (Some ∅) None None) ;;
  carts_get user_id d.

(** [add_item] *)
Definition add_item (user_id : Z) (item_id : string) (quantity : Z) : M bool :=
  cart <- get_cart user_id ;;
  c <- load cart ;;
  (if has_items c then ret tt else update cart (set_items ∅)) ;;;
  its <- subscript_items cart ;;
  match its !! item_id with
  | Some q => items_setitem cart item_id (q + quantity)
  | None => items_setitem cart item_id quantity
  end ;;;
  carts_set user_id cart ;;;
  ret true.

(** [update_quantity] *)
Definition update_quantity (user_id : Z) (item_id : string) (quantity : Z) : M bool :=
  cart <- get_cart user_id ;;
  (if bool_decide (quantity ≤ 0)
   then
     c <- load cart ;;
     if bool_decide (is_Some (items_or_empty c !! item_id))
     then items_delitem cart item_id
     else ret tt
   else items_setitem cart item_id quantity) ;;;
  carts_set user_id cart ;;;
  ret true.

(** [clear_cart] *)
Definition clear_cart (user_id : Z) : M bool :=
  present <- carts_contains user_id ;;
  (if present then carts_del user_id else ret tt) ;;;
  ret true.

(** The state after [get_cart]. *)
Definition got (s : State) : State :=
  mkState (carts s)
          (<[fresh (dom (heap s)) := mkCart (Some ∅) None None]> (heap s))
          (ticks s).

End AddCartSystem.

(** ** The menu lookups of [utils.py]

    [get_item_by_id] and [get_category_by_item_id] search the value that
    [load_menu_data] returns, here the argument [menu_data].  Neither has a
    [try]: [None] stands for an exception that leaves the function. *)
Module Utils.

(** [d[key]] for the fields of a dict, whose keys are distinct. *)
Fixpoint dict_lookup (key : string) (fields : list (string * json)) : option json :=
  match fields with
  | [] => None
  | (k, v) :: rest => if bool_decide (k = key) then Some v else dict_lookup key rest
  end.

(** [v.get(key, dflt)]: only a dict has [get]. *)
Definition py_get (v : json) (key : string) (dflt : json) : option json :=
  match v with
  | JObject fields => Some (default dflt (dict_lookup key fields))
  | _ => None
  end.

(** [v.items()] and [v.values()]: only a dict has them. *)
Definition py_items (v : json) : option (list (string * json)) :=
  match v with
  | JObject fields => Some fields
  | _ => None
  end.

Definition py_values (v : json) : option (list json) :=
  match v with
  | JObject fields => Some fields.*2
  | _ => None
  end.

(** [for x in v]: the elements of a list, the keys of a dict, the characters
    of a str; nothing else of JSON can be iterated. *)
Definition py_iter (v : json) : option (list json) :=
  match v with
  | JArray elems => Some elems
  | JObject fields => Some (JString <$> fields.*1)
  | JString s => Some ((λ a, JString (String a EmptyString)) <$> String.list_ascii_of_string s)
  | _ => None
  end.

(** [v == item_id] for a str [item_id]. *)
Definition equals_str (v : json) (item_id : string) : bool :=
  match v with
  | JString s => bool_decide (s = item_id)
  | _ => false
  end.

(** The inner loop: the first [item] with [item.get("id") == item_id]. *)
Fixpoint find_item (item_id : string) (elems : list json) : option (option json) :=
  match elems with
  | [] => Some None
  | item :: rest =>
      id ← py_get item "id" JNull;
      if equals_str id item_id then Some (Some item) else find_item item_id rest
  end.

(** [category_data.get("items", [])], iterated by the inner loop. *)
Definition find_in_category (item_id : string) (category_data : json)
  : option (option json) :=
  its ← py_get category_data "items" (JArray []);
  elems ← py_iter its;
  find_item item_id elems.

(** The outer loop of [get_item_by_id]. *)
Fixpoint find_in_values (item_id : string) (values : list json) : option (option json) :=
  match values with
  | [] => Some None
  | category_data :: rest =>
      found ← find_in_category item_id category_data;
      match found with
      | Some item => Some (Some item)
      | None => find_in_values item_id rest
      end
  end.

(** [get_item_by_id]: the item, or [{}]. *)
Definition get_item_by_id (menu_data : json) (item_id : string) : option json :=
  categories ← py_get menu_data "categories" (JObject []);
  values ← py_values categories;
  found ← find_in_values item_id values;
  Some (default (JObject []) found).

(** The outer loop of [get_category_by_item_id]. *)
Fixpoint find_category (item_id : string) (fields : list (string * json))
  : option (option string) :=
  match fields with
  | [] => Some None
  | (category_key, category_data) :: rest =>
      found ← find_in_category item_id category_data;
      match found with
      | Some _ => Some (Some category_key)
      | None => find_category item_id rest
      end
  end.

(** [get_category_by_item_id]: the key of the category, or [""]. *)
Definition get_category_by_item_id (menu_data : json) (item_id : string)
  : option string :=
  categories ← py_get menu_data "categories" (JObject []);
  fields ← py_items categories;
  found ← find_category item_id fields;
  Some (default "" found).

(** The item is in the category: one of the things the inner loop runs
    over. *)
Definition in_category (item category_data : json) : Prop :=
  ∃ its elems, py_get category_data "items" (JArray []) = Some its ∧
               py_iter its = Some elems ∧ item ∈ elems.

(** A menu of the expected shape: a dict whose ["categories"], if any, is a
    dict of dicts whose ["items"], if any, is a list of dicts. *)
Definition is_dict (v : json) : Prop := ∃ fields, v = JObject fields.

Definition well_formed_category (category_data : json) : Prop :=
  is_dict category_data ∧
  ∀ its, py_get category_data "items" (JArray []) = Some its →
         ∃ elems, its = JArray elems ∧ Forall is_dict elems.

Definition well_formed_menu (menu_data : json) : Prop :=
  is_dict menu_data ∧
  ∀ categories, py_get menu_data "categories" (JObject []) = Some categories →
    ∃ fields, categories = JObject fields ∧
              Forall (λ kv, well_formed_category kv.2) fields.

End Utils.

(** ** The callback router of [handlers.py]

    [handle_callback_query] picks a handler from [query.data], and for a
    category, an item and an order it cuts the argument out of the data with
    [str.replace].  The choice and the argument are modelled; what the
    chosen handler sends is outside. *)
Module Handlers.

(** [s.startswith(p)] *)
Fixpoint starts_with (p s : string) : bool :=
  match p, s with
  | EmptyString, _ => true
  | String a p', String b s' => bool_decide (a = b) && starts_with p' s'
  | String _ _, EmptyString => false
  end.

(** [s.replace(old, "")] for a non-empty [old]: the occurrences of [old] are
    dropped from left to right, [skip] counting the characters of the
    current occurrence that are still to drop. *)
Fixpoint remove_from (old : string) (skip : nat) (s : string) : string :=
  match s with
  | EmptyString => EmptyString
  | String a s' =>
      match skip with
      | S n => remove_from old n s'
      | O =>
          if starts_with old s
          then remove_from old (String.length old - 1) s'
          else String a (remove_from old 0 s')
      end
  end.

Definition remove_all (old s : string) : string := remove_from old 0 s.

(** The handler that is called, with its argument. *)
Inductive route :=
| MainMenu
| CategorySelection (category : string)
| ItemSelection (item_id : string)
| BackToCategory
| ContactInfo
| LocationInfo
| OrderInfo
| OrderItem (item_id : string)
| CallOrder
| EmailOrder
| CallCafe
| EmailCafe
| Website
| Instagram
| NoHandler.

(** The [if]/[elif] chain of [handle_callback_query]. *)
Definition handle_callback_query (callback_data : string) : route :=
  if String.eqb callback_data "main_menu" then MainMenu
  else if starts_with "category_" callback_data
    then CategorySelection (remove_all "category_" callback_data)
  else if starts_with "item_" callback_data
    then ItemSelection (remove_all "item_" callback_data)
  else if String.eqb callback_data "back_to_category" then BackToCategory
  else if String.eqb callback_data "contact" then ContactInfo
  else if String.eqb callback_data "location" then LocationInfo
  else if String.eqb callback_data "order" then OrderInfo
  else if starts_with "order_" callback_data
    then OrderItem (remove_all "order_" callback_data)
  else if String.eqb callback_data "call_order" then CallOrder
  else if String.eqb callback_data "email_order" then EmailOrder
  else if String.eqb callback_data "call_cafe" then CallCafe
  else if String.eqb callback_data "email_cafe" then EmailCafe
  else if String.eqb callback_data "website" then Website
  else if String.eqb callback_data "instagram" then Instagram
  else NoHandler.

(** [old] occurs in [s]. *)
Definition occurs_in (old s : string) : Prop :=
  ∃ before behind, s = (before ++ old ++ behind)%string.

(** [old in s], by search. *)
Fixpoint contains (old s : string) : bool :=
  starts_with old s ||
  match s with
  | EmptyString => false
  | String _ s' => contains old s'
  end.

End Handlers.

(** The cart dict stored for a user, if any. *)
Definition stored_cart (s : State) (u : Z) : option Cart :=
  carts s !! u ≫= λ l, heap s !! l.

(** [sum(items.values())] *)
Definition sum_quantities (its : gmap string Z) : Z :=
  foldl Z.add 0 (map_to_list its).*2.

(** A decidable proposition about closed data, settled by evaluation. *)
Ltac decide_it := apply (bool_decide_unpack _); vm_compute; exact I.

(** Reads the cart object a user has in an explicit state. *)
Ltac stored_cart_now :=
  unfold stored_cart; cbn;
  rewrite ?lookup_total_insert_eq, ?lookup_insert_eq; cbn;
  rewrite ?lookup_insert_eq;
  unfold set_updated_at, set_created_at, set_items; cbn;
  by repeat (f_equal; try done).

(** ** Sample data *)

Definition sample_clock : nat → string := λ _, "2024-05-01T12:00:00".

(** One user, 7, whose cart holds the given items. *)
Definition sample_store (its : gmap string Z) : State :=
  mkState {[7 := 1%positive]}
          {[1%positive := mkCart (Some its)
                                 (Some "2024-05-01T11:00:00")
                                 (Some "2024-05-01T11:30:00")]}
          2.

Definition sample_cart_ab : State := sample_store {["a" := 2; "b" := 1]}.
Definition sample_cart_a : State := sample_store {["a" := 1]}.
Definition sample_cart_empty : State := sample_store ∅.

Definition menu_item (id price : string) : json :=
  JObject [("id", JString id); ("name", JString id); ("price", JString price)].

(** A menu that maps a category to the list of its items. *)
Definition menu_lists (entries : list json) : json :=
  JObject [("drinks", JArray entries)].

(** A menu in the shape of [menu_data.json]'s categories: a category is a
    dict with a name and the list of its items. *)
Definition menu_categories (entries : list json) : json :=
  JObject [("drinks", JObject [("name", JString "Drinks"); ("items", JArray entries)])].

(** A menu that maps an item id to the item. *)
Definition menu_flat (entries : list (string * string)) : json :=
  JObject ((λ p, (p.1, menu_item p.1 p.2)) <$> entries).

(** A menu file: [{"categories": {"drinks": {"name": ..., "items": [...]}}}]. *)
Definition sample_menu_data : json :=
  JObject [("categories",
            JObject [("drinks",
                      JObject [("name", JString "Drinks");
                               ("items", JArray [menu_item "a" "$3.00";
                                                 menu_item "b" "$5.00"])]);
                     ("food",
                      JObject [("name", JString "Food");
                               ("items", JArray [menu_item "c" "$7.00"])])])].

Definition catalog_ab : list json := [menu_item "a" "$3.00"; menu_item "b" "$5.00"].
Definition catalog_a : list json := [menu_item "a" "$3.00"].

Section CartManager.

(** [from enhanced_config import MAX_CART_ITEMS]: the module is not part of
    the sources, the constant is a parameter. *)
Variable MAX_CART_ITEMS : Z.

(** [datetime.now().isoformat()]: the n-th reading of the clock. *)
Variable wall_clock : nat → string.

Definition now : M string :=
  λ s, (Value (wall_clock (ticks s)), mkState (carts s) (heap s) (S (ticks s))).

(** [get_cart]: the default dict is built before [dict.get] looks the user up
    (Python evaluates arguments first), so the clock is read twice and an
    object is allocated on every call; the stored object itself is returned
    when the user has one.  The handler would return [{'items': {}}]. *)
Definition get_cart (user_id : Z) : M positive :=
  try_catch
    (t1 <- now ;;
     t2 <- now ;;
     d <- new_dict (mkCart (Some ∅) (Some t1) (Some t2)) ;;
     carts_get user_id d)
    (new_dict (mkCart (Some ∅) None None)).

(** [add_item]: the quantity is written into the dict that [get_cart]
    returned, and the capacity is checked after that write. *)
Definition add_item (user_id : Z) (item_id : string) (quantity : Z) : M bool :=
  try_except
    (cart <- get_cart user_id ;;
     c <- load cart ;;
     (if has_items c then ret tt else update cart (set_items ∅)) ;;;
     its <- subscript_items cart ;;
     match its !! item_id with
     | Some q => items_setitem cart item_id (q + quantity)
     | None => items_setitem cart item_id quantity
     end ;;;
     its <- subscript_items cart ;;
     if bool_decide (Z.of_nat (size its) > MAX_CART_ITEMS)
     then ret false
     else
       t <- now ;;
       update cart (set_updated_at t) ;;;
       c <- load cart ;;
       (if has_created_at c then ret tt
        else t' <- now ;; update cart (set_created_at t')) ;;;
       carts_set user_id cart ;;;
       ret true)
    false.

(** [remove_item] *)
Definition remove_item (user_id : Z) (item_id : string) : M bool :=
  try_except
    (cart <- get_cart user_id ;;
     c <- load cart ;;
     if has_items c && bool_decide (is_Some (items_or_empty c !! item_id))
     then
       items_delitem cart item_id ;;;
       t <- now ;;
       update cart (set_updated_at t) ;;;
       carts_set user_id cart ;;;
       ret true
     else ret false)
    false.

(** [update_quantity] *)
Definition update_quantity (user_id : Z) (item_id : string) (quantity : Z) : M bool :=
  try_except
    (if bool_decide (quantity ≤ 0)
     then remove_item user_id item_id
     else
       cart <- get_cart user_id ;;
       c <- load cart ;;
       if has_items c
       then
         items_setitem cart item_id quantity ;;;
         t <- now ;;
         update cart (set_updated_at t) ;;;
         carts_set user_id cart ;;;
         ret true
       else ret false)
    false.

(** [get_item_quantity] *)
Definition get_item_quantity (user_id : Z) (item_id : string) : M Z :=
  try_except
    (cart <- get_cart user_id ;;
     c <- load cart ;;
     ret (default 0 (items_or_empty c !! item_id)))
    0.

(** [clear_cart] *)
Definition clear_cart (user_id : Z) : M bool :=
  try_except
    (present <- carts_contains user_id ;;
     if present
     then carts_del user_id ;;; ret true
     else ret false)
    false.

(** [get_cart_total].  [total] starts as the int [0].  The innermost loop
    runs over a dict, that is over its keys, and calls [.get] on each key:
    lines 141-144 (the comparison with [item_id], the price and the [break])
    would continue with the value of that call, which does not exist. *)
Definition get_cart_total (user_id : Z) (menu_items : json) : M Z :=
  try_except
    (cart <- get_cart user_id ;;
     c <- load cart ;;
     for_fold (map_to_list (items_or_empty c)) 0
       (λ '(item_id, quantity) total,
          categories <- dict_items menu_items ;;
          for_fold categories total
            (λ '(category, its) total,
               if is_dict its
               then for_fold (dict_keys its) total
                      (λ item total,
                         found <- str_get item "id" ;;
                         match found : Empty_set with end)
               else ret total)))
    0.

(** [get_cart_item_count]: [sum] of the values. *)
Definition get_cart_item_count (user_id : Z) : M Z :=
  try_except
    (cart <- get_cart user_id ;;
     c <- load cart ;;
     ret (foldl Z.add 0 (map_to_list (items_or_empty c)).*2))
    0.

(** [is_cart_empty] *)
Definition is_cart_empty (user_id : Z) : M bool :=
  try_except
    (cart <- get_cart user_id ;;
     c <- load cart ;;
     ret (bool_decide (size (items_or_empty c) = 0%nat)))
    true.


(** What a caller sees of [get_cart]'s result: the dict behind the returned
    reference. *)
Definition read_cart (user_id : Z) : M Cart :=
  cart <- get_cart user_id ;;
  load cart.

(** The dict that [get_cart] builds as the default. *)
Definition default_cart (s : State) : Cart :=
  mkCart (Some ∅) (Some (wall_clock (ticks s))) (Some (wall_clock (S (ticks s)))).

(** The state after [get_cart]. *)
Definition got (s : State) : State :=
  mkState (carts s) (<[fresh (dom (heap s)) := default_cart s]> (heap s)) (S (S (ticks s))).

(** ** The handler [update_cart_quantity] of [add_cart_system.py]

    It calls [get_item_quantity], [remove_item] and [update_quantity] on
    [self.cart_manager]; only the class above has all three.  The text it
    answers through the Telegram API is the value returned here; what
    [show_cart] renders is outside, its [get_cart] call is inside. *)
Inductive answer :=
| ItemRemoved                       (* "Item removed from cart!" *)
| QuantityUpdated (new_qty : Z).    (* f"Quantity updated to {new_qty}" *)

(** The [if action == "increase": ... elif action == "decrease": ... else:
    return] at the head of the handler. *)
Definition new_quantity (action : string) (current_qty : Z) : option Z :=
  if bool_decide (action = "increase") then Some (current_qty + 1)
  else if bool_decide (action = "decrease") then Some (Z.max 0 (current_qty - 1))
  else None.

Definition update_cart_quantity (user_id : Z) (action item_id : string)
  : M (option answer) :=
  current_qty <- get_item_quantity user_id item_id ;;
  match new_quantity action current_qty with
  | None => ret None
  | Some new_qty =>
      if bool_decide (new_qty = 0)
      then
        remove_item user_id item_id ;;;
        get_cart user_id ;;;
        ret (Some ItemRemoved)
      else
        update_quantity user_id item_id new_qty ;;;
        ret (Some (QuantityUpdated new_qty))
  end.

(** The calls a client of the class makes, and the states they lead to. *)
Inductive call :=
| CallGetCart (user_id : Z)
| CallAddItem (user_id : Z) (item_id : string) (quantity : Z)
| CallRemoveItem (user_id : Z) (item_id : string)
| CallUpdateQuantity (user_id : Z) (item_id : string) (quantity : Z)
| CallGetItemQuantity (user_id : Z) (item_id : string)
| CallClearCart (user_id : Z)
| CallGetCartTotal (user_id : Z) (menu_items : json)
| CallGetCartItemCount (user_id : Z)
| CallIsCartEmpty (user_id : Z).

Definition perform (c : call) (s : State) : State :=
  match c with
  | CallGetCart u => after (get_cart u) s
  | CallAddItem u i q => after (add_item u i q) s
  | CallRemoveItem u i => after (remove_item u i) s
  | CallUpdateQuantity u i q => after (update_quantity u i q) s
  | CallGetItemQuantity u i => after (get_item_quantity u i) s
  | CallClearCart u => after (clear_cart u) s
  | CallGetCartTotal u menu_items => after (get_cart_total u menu_items) s
  | CallGetCartItemCount u => after (get_cart_item_count u) s
  | CallIsCartEmpty u => after (is_cart_empty u) s
  end.

Definition perform_all (cs : list call) (s : State) : State :=
  foldl (λ s c, perform c s) s cs.

(** The number of distinct item ids of every cart is within the capacity. *)
Definition within_capacity (s : State) : Prop :=
  map_Forall (λ _ (its : gmap string Z), Z.of_nat (size its) ≤ MAX_CART_ITEMS) (view s).

Global Instance within_capacity_dec s : Decision (within_capacity s).
Proof. unfold within_capacity. apply _. Defined.

(** ** The store invariant *)

Lemma store_ok_init : store_ok init.
Proof. split; apply map_Forall_empty. Qed.

Lemma store_ok_lookup s u l :
  store_ok s → carts s !! u = Some l →
  ∃ c its, heap s !! l = Some c ∧ items c = Some its.
Proof.
  intros [H _] Hu. destruct (H _ _ Hu) as [its Hits].
  apply bind_Some in Hits as (c & Hc & Hits). eauto.
Qed.

Lemma store_ok_inj s u1 u2 l :
  store_ok s → carts s !! u1 = Some l → carts s !! u2 = Some l → u1 = u2.
Proof. intros [_ H] H1 H2. by apply (H _ _ H1 _ _ H2). Qed.

Lemma view_lookup s u :
  view s !! u = (λ l, items_or_empty (heap s !!! l)) <$> carts s !! u.
Proof. apply lookup_fmap. Qed.

Lemma view_lookup_Some s u l c its :
  carts s !! u = Some l → heap s !! l = Some c → items c = Some its →
  view s !! u = Some its.
Proof.
  intros Hu Hl Hits. rewrite view_lookup, Hu. cbn.
  by rewrite (lookup_total_correct _ _ _ Hl); unfold items_or_empty; rewrite Hits.
Qed.

Lemma view_lookup_None s u : carts s !! u = None ↔ view s !! u = None.
Proof. rewrite view_lookup. by rewrite fmap_None. Qed.

(** A method that rebinds [self.carts[u]] to [r], the user's own object or
    a new one, and touches no other allocated object. *)
Lemma view_write s s' u r its' :
  store_ok s →
  carts s !! u = Some r ∨ heap s !! r = None →
  carts s' = <[u := r]> (carts s) →
  heap s' !! r ≫= items = Some its' →
  (∀ l, is_Some (heap s !! l) → l ≠ r → heap s' !! l = heap s !! l) →
  store_ok s' ∧ view s' = <[u := its']> (view s).
Proof.
  intros Hok Hr Hcarts Hnew Hframe.
  assert (Hother : ∀ u' l', u' ≠ u → carts s !! u' = Some l' →
            heap s' !! l' = heap s !! l').
  { intros u' l' Hne Hu'.
    destruct (store_ok_lookup _ _ _ Hok Hu') as (c & its & Hc & _).
    apply Hframe; [by rewrite Hc|]. intros ->.
    destruct Hr as [Hr|Hr]; [|congruence].
    by apply Hne, (store_ok_inj s u' u r). }
  split; [split|].
  - intros u' l'. rewrite Hcarts, lookup_insert. case_decide as Hu.
    + intros [= <-]. by rewrite Hnew.
    + intros Hu'. rewrite (Hother u' l') by done. by apply (proj1 Hok u').
  - intros u1 l1 H1 u2 l2 H2 <-. rewrite Hcarts in H1, H2.
    assert (Hfree : ∀ u', u' ≠ u → carts s !! u' ≠ Some r).
    { intros u' Hne Hu'.
      destruct (store_ok_lookup _ _ _ Hok Hu') as (c & its & Hc & _).
      destruct Hr as [Hr|Hr]; [|congruence]. by apply Hne, (store_ok_inj s u' u r). }
    destruct (decide (u1 = u)) as [->|Hn1], (decide (u2 = u)) as [->|Hn2]; [done|..].
    + rewrite lookup_insert_eq in H1. rewrite lookup_insert_ne in H2 by done.
      simplify_eq. by destruct (Hfree u2).
    + rewrite lookup_insert_eq in H2. rewrite lookup_insert_ne in H1 by done.
      simplify_eq. by destruct (Hfree u1).
    + rewrite lookup_insert_ne in H1, H2 by done. by apply (store_ok_inj s u1 u2 l1).
  - apply map_eq. intros u'. rewrite view_lookup, Hcarts, !lookup_insert.
    case_decide as Hu.
    + cbn. apply bind_Some in Hnew as (c' & Hc' & Hits').
      rewrite (lookup_total_correct _ _ _ Hc'). unfold items_or_empty. by rewrite Hits'.
    + rewrite view_lookup. destruct (carts s !! u') as [l'|] eqn:Hu'; [|done].
      cbn. rewrite !lookup_total_alt. rewrite (Hother u' l'); done.
Qed.

(** A method that leaves [self.carts] and all allocated objects alone. *)
Lemma view_same s s' :
  store_ok s →
  carts s' = carts s →
  (∀ l, is_Some (heap s !! l) → heap s' !! l = heap s !! l) →
  store_ok s' ∧ view s' = view s.
Proof.
  intros Hok Hcarts Hframe.
  assert (Hsame : ∀ u l, carts s !! u = Some l → heap s' !! l = heap s !! l).
  { intros u l Hu. destruct (store_ok_lookup _ _ _ Hok Hu) as (c & its & Hc & _).
    apply Hframe. by rewrite Hc. }
  split; [split|].
  - intros u l. rewrite Hcarts. intros Hu. rewrite (Hsame u l) by done. by apply (proj1 Hok u).
  - rewrite Hcarts. apply Hok.
  - apply map_eq. intros u. rewrite !view_lookup, Hcarts.
    destruct (carts s !! u) as [l|] eqn:Hu; [|done].
    cbn. rewrite !lookup_total_alt. by rewrite (Hsame u l).
Qed.

(** ** Stepping through a method body *)

Lemma bind_assoc {A B C} (m : M A) (f : A → M B) (g : B → M C) s :
  bind (bind m f) g s = bind m (λ a, bind (f a) g) s.
Proof. unfold bind. by destruct (m s) as [[a|e] s']. Qed.

Lemma bind_ret {A B} (a : A) (k : A → M B) s : bind (ret a) k s = k a s.
Proof. reflexivity. Qed.

Lemma bind_load {B} l (k : Cart → M B) s : bind (load l) k s = k (heap s !!! l) s.
Proof. reflexivity. Qed.

Lemma bind_update {B} l f (k : unit → M B) s :
  bind (update l f) k s =
  k tt (mkState (carts s) (<[l := f (heap s !!! l)]> (heap s)) (ticks s)).
Proof. reflexivity. Qed.

Lemma bind_carts_set {B} u l (k : unit → M B) s :
  bind (carts_set u l) k s = k tt (mkState (<[u := l]> (carts s)) (heap s) (ticks s)).
Proof. reflexivity. Qed.

Lemma bind_subscript_items {B} l its (k : gmap string Z → M B) s :
  items (heap s !!! l) = Some its →
  bind (subscript_items l) k s = k its s.
Proof. intros H. unfold subscript_items. rewrite bind_assoc, bind_load, H. reflexivity. Qed.

Lemma bind_items_setitem {B} l i v its (k : unit → M B) s :
  items (heap s !!! l) = Some its →
  bind (items_setitem l i v) k s =
  k tt (mkState (carts s) (<[l := set_items (<[i := v]> its) (heap s !!! l)]> (heap s)) (ticks s)).
Proof.
  intros H. unfold items_setitem.
  rewrite bind_assoc, (bind_subscript_items _ its) by done. apply bind_update.
Qed.

Lemma bind_items_delitem {B} l i its (k : unit → M B) s :
  items (heap s !!! l) = Some its → is_Some (its !! i) →
  bind (items_delitem l i) k s =
  k tt (mkState (carts s) (<[l := set_items (delete i its) (heap s !!! l)]> (heap s)) (ticks s)).
Proof.
  intros H [v Hv]. unfold items_delitem.
  rewrite bind_assoc, (bind_subscript_items _ its) by done. rewrite Hv. apply bind_update.
Qed.

Lemma bind_now {B} (k : string → M B) s :
  bind now k s = k (wall_clock (ticks s)) (mkState (carts s) (heap s) (S (ticks s))).
Proof. reflexivity. Qed.

Lemma get_cart_eq u s :
  get_cart u s = (Value (default (fresh (dom (heap s))) (carts s !! u)), got s).
Proof. reflexivity. Qed.

Lemma bind_get_cart {B} u (k : positive → M B) s :
  bind (get_cart u) k s = k (default (fresh (dom (heap s))) (carts s !! u)) (got s).
Proof. reflexivity. Qed.

Lemma fresh_unallocated s : heap s !! fresh (dom (heap s)) = None.
Proof. apply not_elem_of_dom, is_fresh. Qed.

Lemma got_frame s l : is_Some (heap s !! l) → heap (got s) !! l = heap s !! l.
Proof.
  intros [c Hc]. cbn. apply lookup_insert_ne. intros <-.
  by rewrite fresh_unallocated in Hc.
Qed.

(** The reference [get_cart] returns: the user's own object, or a new one
    with no items, and what it points to. *)
Lemma get_cart_target s u :
  store_ok s →
  let r := default (fresh (dom (heap s))) (carts s !! u) in
  (carts s !! u = Some r ∨ carts s !! u = None ∧ heap s !! r = None) ∧
  ∃ c, heap (got s) !! r = Some c ∧ items c = Some (user_items s u).
Proof.
  intros Hok. unfold user_items. destruct (carts s !! u) as [l|] eqn:Hu; cbn.
  - split; [by left|].
    destruct (store_ok_lookup _ _ _ Hok Hu) as (c & its & Hc & Hits).
    exists c. rewrite (view_lookup_Some _ _ _ _ _ Hu Hc Hits). cbn.
    split; [|done]. rewrite <- Hc. apply (got_frame s l). by rewrite Hc.
  - split; [right; split; [done|apply fresh_unallocated]|].
    apply view_lookup_None in Hu. rewrite Hu. cbn.
    eexists. split; [apply lookup_insert_eq|done].
Qed.

Lemma frame_from_got s s' r :
  (∀ l, l ≠ r → heap s' !! l = heap (got s) !! l) →
  ∀ l, is_Some (heap s !! l) → l ≠ r → heap s' !! l = heap s !! l.
Proof. intros H l Hl Hne. rewrite H by done. by apply got_frame. Qed.

(** The two ways a method ends: it has written the items [its'] into the
    object [r] it got from [get_cart] and either bound [self.carts[u]] to it
    or returned early. *)
Lemma written_view s s' u r its' (bound : bool) :
  store_ok s →
  carts s !! u = Some r ∨ carts s !! u = None ∧ heap s !! r = None →
  carts s' = (if bound then <[u := r]> (carts s) else carts s) →
  heap s' !! r ≫= items = Some its' →
  (∀ l, l ≠ r → heap s' !! l = heap (got s) !! l) →
  store_ok s' ∧
  view s' = if bool_decide (is_Some (view s !! u)) || bound
            then <[u := its']> (view s) else view s.
Proof.
  intros Hok Hr Hcarts Hnew Hframe.
  pose proof (frame_from_got _ _ _ Hframe) as Hframe'.
  destruct Hr as [Hu|[Hu Hfree]].
  - assert (is_Some (view s !! u)) as Hsome.
    { rewrite view_lookup, Hu. by eexists. }
    rewrite (bool_decide_eq_true_2 _ Hsome). cbn.
    apply (view_write s s' u r); auto.
    destruct bound; [done|]. by rewrite insert_id.
  - assert (¬ is_Some (view s !! u)) as Hnone.
    { apply view_lookup_None in Hu. rewrite Hu. by intros [? ?]. }
    rewrite (bool_decide_eq_false_2 _ Hnone). cbn.
    destruct bound.
    + apply (view_write s s' u r); auto.
    + apply view_same; auto. intros l Hl. apply Hframe'; [done|].
      intros ->. rewrite Hfree in Hl. by destruct Hl.
Qed.

Lemma add_item_run s u i q :
  store_ok s →
  let its' := add_to (user_items s u) i q in
  let fits := bool_decide (Z.of_nat (size its') ≤ MAX_CART_ITEMS) in
  ∃ s', add_item u i q s = (Value fits, s') ∧ store_ok s' ∧
        view s' = if bool_decide (is_Some (view s !! u)) || fits
                  then <[u := its']> (view s) else view s.
Proof.
  intros Hok its' fits.
  destruct (get_cart_target s u Hok) as (Hr & c & Hc & Hits).
  set (r := default (fresh (dom (heap s))) (carts s !! u)) in *.
  unfold add_item, try_except.
  rewrite bind_get_cart. fold r.
  rewrite bind_load, (lookup_total_correct _ _ _ Hc).
  unfold has_items at 1. rewrite Hits. cbv beta iota. rewrite bind_ret.
  rewrite (bind_subscript_items _ (user_items s u))
    by (by rewrite (lookup_total_correct _ _ _ Hc)).
  set (v := match user_items s u !! i with Some q0 => q0 + q | None => q end).
  replace (match user_items s u !! i with
           | Some q0 => items_setitem r i (q0 + q)
           | None => items_setitem r i q
           end) with (items_setitem r i v)
    by (subst v; by destruct (user_items s u !! i)).
  assert (its' = <[i := v]> (user_items s u)) as Hits'
    by (subst its' v; unfold add_to; by destruct (user_items s u !! i)).
  rewrite (bind_items_setitem _ _ _ (user_items s u))
    by (by rewrite (lookup_total_correct _ _ _ Hc)).
  rewrite <- Hits', (lookup_total_correct _ _ _ Hc).
  rewrite (bind_subscript_items _ its')
    by (cbn [heap]; by rewrite lookup_total_insert_eq).
  cbv beta. case_bool_decide as Hsize.
  - assert (fits = false) as -> by (apply bool_decide_eq_false_2; lia).
    eexists. split; [reflexivity|].
    apply (written_view s _ u r its' false); auto.
    + cbn. rewrite lookup_insert_eq. reflexivity.
    + intros l Hl. cbn. by rewrite lookup_insert_ne by congruence.
  - assert (fits = true) as -> by (apply bool_decide_eq_true_2; lia).
    rewrite bind_now, bind_update, bind_load. cbn [heap carts ticks].
    rewrite !lookup_total_insert_eq.
    destruct (created_at c) as [t0|] eqn:Hcreated.
    + unfold has_created_at. cbn [created_at set_updated_at set_items]. rewrite Hcreated.
      cbv beta iota. rewrite bind_ret, bind_carts_set. cbn [heap carts ticks].
      eexists. split; [reflexivity|].
      apply (written_view s _ u r its' true); auto.
      * cbn. rewrite lookup_insert_eq. reflexivity.
      * intros l Hl. cbn. by rewrite !(lookup_insert_ne _ r) by congruence.
    + unfold has_created_at. cbn [created_at set_updated_at set_items]. rewrite Hcreated.
      cbv beta iota. rewrite bind_assoc, bind_now, bind_update, bind_carts_set.
      cbn [heap carts ticks]. rewrite !lookup_total_insert_eq.
      eexists. split; [reflexivity|].
      apply (written_view s _ u r its' true); auto.
      * cbn. rewrite lookup_insert_eq. reflexivity.
      * intros l Hl. cbn. by rewrite !(lookup_insert_ne _ r) by congruence.
Qed.

Lemma got_view s : store_ok s → store_ok (got s) ∧ view (got s) = view s.
Proof. intros Hok. apply view_same; [done|done|]. intros l. apply got_frame. Qed.


Lemma user_items_Some s u i q :
  user_items s u !! i = Some q → is_Some (view s !! u).
Proof.
  unfold user_items. destruct (view s !! u); [by eexists|]. cbn.
  by rewrite lookup_empty.
Qed.

Lemma remove_item_run s u i :
  store_ok s →
  let found := bool_decide (is_Some (user_items s u !! i)) in
  ∃ s', remove_item u i s = (Value found, s') ∧ store_ok s' ∧
        view s' = if found then <[u := delete i (user_items s u)]> (view s)
                  else view s.
Proof.
  intros Hok found.
  destruct (get_cart_target s u Hok) as (Hr & c & Hc & Hits).
  set (r := default (fresh (dom (heap s))) (carts s !! u)) in *.
  unfold remove_item, try_except.
  rewrite bind_get_cart. fold r.
  rewrite bind_load, (lookup_total_correct _ _ _ Hc).
  unfold has_items, items_or_empty. rewrite Hits. cbn [default from_option id andb].
  fold found. destruct found eqn:Hfound.
  - apply bool_decide_eq_true_1 in Hfound.
    rewrite (bind_items_delitem _ _ (user_items s u))
      by (by rewrite ?(lookup_total_correct _ _ _ Hc)).
    rewrite (lookup_total_correct _ _ _ Hc).
    rewrite bind_now, bind_update, bind_carts_set. cbn [heap carts ticks].
    rewrite !lookup_total_insert_eq.
    eexists. split; [reflexivity|].
    destruct Hfound as [q0 Hq0].
    pose proof (user_items_Some _ _ _ _ Hq0) as Hsome.
    replace (<[u := delete i (user_items s u)]> (view s))
      with (if bool_decide (is_Some (view s !! u)) || true
            then <[u := delete i (user_items s u)]> (view s) else view s)
      by (by rewrite orb_true_r).
    apply (written_view s _ u r _ true); auto.
    + cbn. rewrite lookup_insert_eq. reflexivity.
    + intros l Hl. cbn. by rewrite !(lookup_insert_ne _ r) by congruence.
  - eexists. split; [reflexivity|]. by apply got_view.
Qed.

Lemma try_except_value {A} (m : M A) (fallback : A) s :
  ∃ a s', try_except m fallback s = (Value a, s').
Proof. unfold try_except. destruct (m s) as [[a|e] s']; eauto. Qed.

Lemma try_except_twice {A} (m : M A) (f1 f2 : A) s :
  try_except (try_except m f1) f2 s = try_except m f1 s.
Proof.
  unfold try_except at 1.
  by destruct (try_except_value m f1 s) as (a & s' & ->).
Qed.

Lemma update_quantity_nonpositive s u i q :
  q ≤ 0 → update_quantity u i q s = remove_item u i s.
Proof.
  intros Hq. unfold update_quantity. rewrite (bool_decide_eq_true_2 _ Hq).
  unfold remove_item. apply try_except_twice.
Qed.

Lemma update_quantity_run s u i q :
  store_ok s → 0 < q →
  ∃ s', update_quantity u i q s = (Value true, s') ∧ store_ok s' ∧
        view s' = <[u := <[i := q]> (user_items s u)]> (view s).
Proof.
  intros Hok Hq.
  destruct (get_cart_target s u Hok) as (Hr & c & Hc & Hits).
  set (r := default (fresh (dom (heap s))) (carts s !! u)) in *.
  unfold update_quantity, try_except.
  rewrite bool_decide_eq_false_2 by lia.
  rewrite bind_get_cart. fold r.
  rewrite bind_load, (lookup_total_correct _ _ _ Hc).
  unfold has_items. rewrite Hits. cbv beta iota.
  rewrite (bind_items_setitem _ _ _ (user_items s u))
    by (by rewrite (lookup_total_correct _ _ _ Hc)).
  rewrite (lookup_total_correct _ _ _ Hc).
  rewrite bind_now, bind_update, bind_carts_set. cbn [heap carts ticks].
  rewrite !lookup_total_insert_eq.
  eexists. split; [reflexivity|].
  replace (<[u := <[i := q]> (user_items s u)]> (view s))
    with (if bool_decide (is_Some (view s !! u)) || true
          then <[u := <[i := q]> (user_items s u)]> (view s) else view s)
    by (by rewrite orb_true_r).
  apply (written_view s _ u r _ true); auto.
  - cbn. rewrite lookup_insert_eq. reflexivity.
  - intros l Hl. cbn. by rewrite !(lookup_insert_ne _ r) by congruence.
Qed.

Lemma clear_cart_run s u :
  store_ok s →
  ∃ s', clear_cart u s = (Value (bool_decide (is_Some (view s !! u))), s') ∧
        store_ok s' ∧ view s' = delete u (view s).
Proof.
  intros Hok. unfold clear_cart, try_except, bind, carts_contains, carts_del, ret.
  assert (bool_decide (is_Some (view s !! u)) = bool_decide (is_Some (carts s !! u))) as ->.
  { apply bool_decide_ext. rewrite view_lookup. apply fmap_is_Some. }
  case_bool_decide as Hu; cbn.
  - eexists. split; [reflexivity|]. split; [split|].
    + intros u' l. cbn. intros Hu'%lookup_delete_Some. by apply (proj1 Hok u'), Hu'.
    + intros u1 l1 H1 u2 l2 H2 <-. cbn in H1, H2.
      apply lookup_delete_Some in H1, H2.
      by apply (store_ok_inj s u1 u2 l1); [done|apply H1|apply H2].
    + unfold view. cbn. apply fmap_delete.
  - eexists. split; [reflexivity|]. split; [done|].
    symmetry. apply delete_id. apply view_lookup_None.
    by apply eq_None_not_Some.
Qed.

Lemma get_item_quantity_run s u i :
  store_ok s →
  get_item_quantity u i s = (Value (default 0 (user_items s u !! i)), got s).
Proof.
  intros Hok. destruct (get_cart_target s u Hok) as (Hr & c & Hc & Hits).
  unfold get_item_quantity, try_except.
  rewrite bind_get_cart, bind_load, (lookup_total_correct _ _ _ Hc).
  unfold items_or_empty. by rewrite Hits.
Qed.

Lemma get_cart_item_count_run s u :
  store_ok s →
  get_cart_item_count u s =
  (Value (foldl Z.add 0 (map_to_list (user_items s u)).*2), got s).
Proof.
  intros Hok. destruct (get_cart_target s u Hok) as (Hr & c & Hc & Hits).
  unfold get_cart_item_count, try_except.
  rewrite bind_get_cart, bind_load, (lookup_total_correct _ _ _ Hc).
  unfold items_or_empty. by rewrite Hits.
Qed.

Lemma is_cart_empty_run s u :
  store_ok s →
  is_cart_empty u s = (Value (bool_decide (size (user_items s u) = 0%nat)), got s).
Proof.
  intros Hok. destruct (get_cart_target s u Hok) as (Hr & c & Hc & Hits).
  unfold is_cart_empty, try_except.
  rewrite bind_get_cart, bind_load, (lookup_total_correct _ _ _ Hc).
  unfold items_or_empty. by rewrite Hits.
Qed.

Lemma read_cart_run s u :
  store_ok s →
  ∃ c, read_cart u s = (Value c, got s) ∧ items c = Some (user_items s u).
Proof.
  intros Hok. destruct (get_cart_target s u Hok) as (Hr & c & Hc & Hits).
  exists c. split; [|done]. unfold read_cart.
  by rewrite bind_get_cart; unfold load; rewrite (lookup_total_correct _ _ _ Hc).
Qed.

(** A loop whose body either leaves the accumulator and the state alone or
    raises does the same as a whole. *)
Lemma for_fold_idle {A S} (xs : list A) (body : A → S → M S) (acc : S) s :
  (∀ x a, body x a s = (Value a, s) ∨ ∃ e, body x a s = (Raised e, s)) →
  for_fold xs acc body s = (Value acc, s) ∨ ∃ e, for_fold xs acc body s = (Raised e, s).
Proof.
  intros Hbody. induction xs as [|x xs IH]; cbn; [by left|].
  unfold bind. destruct (Hbody x acc) as [->|[e ->]]; [done|].
  right. by exists e.
Qed.

Lemma get_cart_total_run s u menu_items :
  get_cart_total u menu_items s = (Value 0, got s).
Proof.
  unfold get_cart_total, try_except.
  rewrite bind_get_cart, bind_load.
  match goal with
  | |- context [for_fold ?xs 0 ?body (got s)] =>
      destruct (for_fold_idle xs body 0 (got s)) as [->|[e ->]]; [|done..]
  end.
  intros [item_id quantity] total.
  destruct menu_items as [| | | | |categories];
    try (right; by exists AttributeError).
  cbn [dict_items]. rewrite bind_ret.
  apply for_fold_idle. intros [category its] total'.
  destruct (is_dict its); [|by left].
  apply for_fold_idle. intros item total''.
  right. by exists AttributeError.
Qed.

(** ** What the methods return and leave behind *)

Lemma run_result {A} (m : M A) s a s' :
  m s = (Value a, s') → result m s = Value a ∧ after m s = s'.
Proof. unfold result, after. by intros ->. Qed.

Lemma user_items_lookup s u its : view s !! u = Some its → user_items s u = its.
Proof. unfold user_items. by intros ->. Qed.

Lemma user_items_None s u : view s !! u = None → user_items s u = ∅.
Proof. unfold user_items. by intros ->. Qed.

Lemma add_to_lookup its i q :
  add_to its i q !! i = Some (default 0 (its !! i) + q).
Proof.
  unfold add_to. destruct (its !! i) as [q0|]; rewrite lookup_insert_eq; cbn; f_equal; lia.
Qed.

Lemma add_to_lookup_ne its i j q : i ≠ j → add_to its i q !! j = its !! j.
Proof. intros Hne. unfold add_to. by destruct (its !! i); rewrite lookup_insert_ne. Qed.

Lemma add_to_size_new its i q :
  its !! i = None → size (add_to its i q) = S (size its).
Proof. intros Hi. unfold add_to. rewrite Hi. by apply map_size_insert_None. Qed.

(** After [add_item], whatever it returned, a user who had a cart reads the
    written items; a user who had none reads them when the call succeeded. *)
Lemma add_item_user_items s u i q :
  store_ok s →
  is_Some (view s !! u) ∨ result (add_item u i q) s = Value true →
  user_items (after (add_item u i q) s) u = add_to (user_items s u) i q.
Proof.
  intros Hok Hcase.
  destruct (add_item_run s u i q Hok) as (s' & Hrun & _ & Hview).
  apply run_result in Hrun as [Hres ->].
  unfold user_items at 1. rewrite Hview.
  destruct Hcase as [Hsome|Htrue].
  - rewrite (bool_decide_eq_true_2 _ Hsome). cbn. by rewrite lookup_insert_eq.
  - rewrite Hres in Htrue. injection Htrue as ->.
    rewrite orb_true_r. by rewrite lookup_insert_eq.
Qed.

(** C1: on a stored cart that already holds [MAX_CART_ITEMS] distinct item
    ids, [add_item] with an item id that is not yet present returns [False],
    and yet the stored cart holds the new item afterwards: the item set
    after the rejected call differs from the one before it. *)
Theorem add_item_rejected_after_write s u i q :
  store_ok s →
  is_Some (view s !! u) →
  Z.of_nat (size (user_items s u)) = MAX_CART_ITEMS →
  user_items s u !! i = None →
  result (add_item u i q) s = Value false ∧
  user_items (after (add_item u i q) s) u = <[i := q]> (user_items s u) ∧
  user_items (after (add_item u i q) s) u ≠ user_items s u.
Proof.
  intros Hok Hsome Hsize Hnew.
  assert (add_to (user_items s u) i q = <[i := q]> (user_items s u)) as Hadd
    by (unfold add_to; by rewrite Hnew).
  destruct (add_item_run s u i q Hok) as (s' & Hrun & _ & _).
  apply run_result in Hrun as [Hres _].
  rewrite add_item_user_items, Hadd by auto.
  split; [|split; [done|]].
  - rewrite Hres. f_equal. apply bool_decide_eq_false_2.
    rewrite add_to_size_new by done. lia.
  - intros Heq. rewrite <- Heq, lookup_insert_eq in Hnew. done.
Qed.

(** C3 (as amended): [add_item] does not check the sign of the quantity.
    For a quantity [q ≤ 0], when the cart after the write holds at most
    [MAX_CART_ITEMS] distinct ids, the call returns [True], the stored
    quantity of the item becomes the previous one (0 when absent) plus [q],
    and the other entries stay as they were. *)
Theorem add_item_nonpositive_quantity s u i q :
  store_ok s →
  q ≤ 0 →
  Z.of_nat (size (add_to (user_items s u) i q)) ≤ MAX_CART_ITEMS →
  result (add_item u i q) s = Value true ∧
  user_items (after (add_item u i q) s) u !! i =
    Some (default 0 (user_items s u !! i) + q) ∧
  ∀ j, j ≠ i →
    user_items (after (add_item u i q) s) u !! j = user_items s u !! j.
Proof.
  intros Hok _ Hfits.
  destruct (add_item_run s u i q Hok) as (s' & Hrun & _ & _).
  apply run_result in Hrun as [Hres _].
  rewrite (bool_decide_eq_true_2 _ Hfits) in Hres.
  rewrite add_item_user_items by auto.
  split; [done|]. split; [apply add_to_lookup|].
  intros j Hne. by apply add_to_lookup_ne.
Qed.

Lemma user_items_positive s u :
  quantities_positive s → map_Forall (λ (_ : string) (q : Z), 0 < q) (user_items s u).
Proof.
  intros Hpos. unfold user_items. destruct (view s !! u) as [its|] eqn:Hu; cbn.
  - by apply (Hpos u).
  - apply map_Forall_empty.
Qed.

Lemma add_item_positive s u i q :
  store_ok s → quantities_positive s → 0 < q →
  quantities_positive (after (add_item u i q) s).
Proof.
  intros Hok Hpos Hq.
  destruct (add_item_run s u i q Hok) as (s' & Hrun & _ & Hview).
  apply run_result in Hrun as [_ ->].
  unfold quantities_positive. rewrite Hview.
  destruct (_ || _); [|done].
  apply map_Forall_insert_2; [|done].
  pose proof (user_items_positive s u Hpos) as Hits.
  unfold add_to. destruct (user_items s u !! i) as [q0|] eqn:Hi.
  - apply map_Forall_insert_2; [|done]. specialize (Hits _ _ Hi). cbn in Hits. lia.
  - by apply map_Forall_insert_2.
Qed.

Lemma remove_item_positive s u i :
  store_ok s → quantities_positive s →
  quantities_positive (after (remove_item u i) s).
Proof.
  intros Hok Hpos.
  destruct (remove_item_run s u i Hok) as (s' & Hrun & _ & Hview).
  apply run_result in Hrun as [_ ->].
  unfold quantities_positive. rewrite Hview.
  destruct (bool_decide _); [|done].
  apply map_Forall_insert_2; [|done].
  apply map_Forall_delete, user_items_positive, Hpos.
Qed.

Lemma update_quantity_positive s u i q :
  store_ok s → quantities_positive s →
  quantities_positive (after (update_quantity u i q) s).
Proof.
  intros Hok Hpos. destruct (decide (q ≤ 0)) as [Hq|Hq].
  - unfold after. rewrite update_quantity_nonpositive by done.
    by apply remove_item_positive.
  - destruct (update_quantity_run s u i q Hok) as (s' & Hrun & _ & Hview); [lia|].
    apply run_result in Hrun as [_ ->].
    unfold quantities_positive. rewrite Hview.
    apply map_Forall_insert_2; [|done].
    apply map_Forall_insert_2; [lia|]. by apply user_items_positive.
Qed.

Lemma clear_cart_positive s u :
  store_ok s → quantities_positive s →
  quantities_positive (after (clear_cart u) s).
Proof.
  intros Hok Hpos.
  destruct (clear_cart_run s u Hok) as (s' & Hrun & _ & Hview).
  apply run_result in Hrun as [_ ->].
  unfold quantities_positive. rewrite Hview. by apply map_Forall_delete.
Qed.

(** C4 (as amended): from a state in which every stored quantity is
    positive, [update_quantity], [remove_item] and [clear_cart] lead to such
    a state for all arguments, and [add_item] does so when its quantity is
    positive. *)
Theorem quantities_positive_preserved s :
  store_ok s →
  quantities_positive s →
  (∀ u i q, 0 < q → quantities_positive (after (add_item u i q) s)) ∧
  (∀ u i q, quantities_positive (after (update_quantity u i q) s)) ∧
  (∀ u i, quantities_positive (after (remove_item u i) s)) ∧
  (∀ u, quantities_positive (after (clear_cart u) s)).
Proof.
  intros Hok Hpos. repeat split; intros.
  - by apply add_item_positive.
  - by apply update_quantity_positive.
  - by apply remove_item_positive.
  - by apply clear_cart_positive.
Qed.

Lemma within_capacity_user s u :
  within_capacity s → is_Some (view s !! u) →
  Z.of_nat (size (user_items s u)) ≤ MAX_CART_ITEMS.
Proof.
  intros Hcap [its Hu]. rewrite (user_items_lookup _ _ _ Hu). by apply (Hcap u).
Qed.

Lemma remove_item_capacity s u i :
  store_ok s → within_capacity s → within_capacity (after (remove_item u i) s).
Proof.
  intros Hok Hcap.
  destruct (remove_item_run s u i Hok) as (s' & Hrun & _ & Hview).
  apply run_result in Hrun as [_ ->].
  unfold within_capacity. rewrite Hview.
  case_bool_decide as Hfound; [|done].
  apply map_Forall_insert_2; [|done].
  destruct Hfound as [q0 Hq0].
  pose proof (within_capacity_user s u Hcap (user_items_Some _ _ _ _ Hq0)).
  rewrite map_size_delete, Hq0. lia.
Qed.

Lemma clear_cart_capacity s u :
  store_ok s → within_capacity s → within_capacity (after (clear_cart u) s).
Proof.
  intros Hok Hcap.
  destruct (clear_cart_run s u Hok) as (s' & Hrun & _ & Hview).
  apply run_result in Hrun as [_ ->].
  unfold within_capacity. rewrite Hview. by apply map_Forall_delete.
Qed.

Lemma update_quantity_capacity s u i q :
  store_ok s → within_capacity s →
  q ≤ 0 ∨ is_Some (user_items s u !! i) →
  within_capacity (after (update_quantity u i q) s).
Proof.
  intros Hok Hcap Hcase. destruct (decide (q ≤ 0)) as [Hq|Hq].
  - unfold after. rewrite update_quantity_nonpositive by done.
    by apply remove_item_capacity.
  - destruct Hcase as [?|[q0 Hq0]]; [done|].
    destruct (update_quantity_run s u i q Hok) as (s' & Hrun & _ & Hview); [lia|].
    apply run_result in Hrun as [_ ->].
    unfold within_capacity. rewrite Hview.
    apply map_Forall_insert_2; [|done].
    pose proof (within_capacity_user s u Hcap (user_items_Some _ _ _ _ Hq0)).
    rewrite map_size_insert_Some by eauto. lia.
Qed.

Lemma add_item_capacity s u i q :
  store_ok s → within_capacity s →
  result (add_item u i q) s = Value true →
  within_capacity (after (add_item u i q) s).
Proof.
  intros Hok Hcap Htrue.
  destruct (add_item_run s u i q Hok) as (s' & Hrun & _ & Hview).
  apply run_result in Hrun as [Hres ->].
  rewrite Hres in Htrue. injection Htrue as Hfits.
  unfold within_capacity. rewrite Hview, Hfits, orb_true_r.
  apply map_Forall_insert_2; [|done].
  by apply bool_decide_eq_true_1 in Hfits.
Qed.

(** C5 (as amended): from a state in which every cart holds at most
    [MAX_CART_ITEMS] distinct item ids, [remove_item] and [clear_cart] lead
    to such a state, [update_quantity] does so when the quantity is not
    positive or the item id is already in the user's cart, and [add_item]
    does so when it returns [True].  ([update_quantity] with a positive
    quantity for an absent item id adds a key without any capacity check.) *)
Theorem within_capacity_preserved s :
  store_ok s →
  within_capacity s →
  (∀ u i, within_capacity (after (remove_item u i) s)) ∧
  (∀ u, within_capacity (after (clear_cart u) s)) ∧
  (∀ u i q, q ≤ 0 ∨ is_Some (user_items s u !! i) →
            within_capacity (after (update_quantity u i q) s)) ∧
  (∀ u i q, result (add_item u i q) s = Value true →
            within_capacity (after (add_item u i q) s)).
Proof.
  intros Hok Hcap. repeat split; intros.
  - by apply remove_item_capacity.
  - by apply clear_cart_capacity.
  - by apply update_quantity_capacity.
  - by apply add_item_capacity.
Qed.

Lemma add_item_ok s u i q : store_ok s → store_ok (after (add_item u i q) s).
Proof.
  intros Hok. destruct (add_item_run s u i q Hok) as (s' & Hrun & Hok' & _).
  by apply run_result in Hrun as [_ ->].
Qed.

Lemma remove_item_ok s u i : store_ok s → store_ok (after (remove_item u i) s).
Proof.
  intros Hok. destruct (remove_item_run s u i Hok) as (s' & Hrun & Hok' & _).
  by apply run_result in Hrun as [_ ->].
Qed.

Lemma update_quantity_ok s u i q :
  store_ok s → store_ok (after (update_quantity u i q) s).
Proof.
  intros Hok. destruct (decide (q ≤ 0)) as [Hq|Hq].
  - unfold after. rewrite update_quantity_nonpositive by done.
    by apply remove_item_ok.
  - destruct (update_quantity_run s u i q Hok) as (s' & Hrun & Hok' & _); [lia|].
    by apply run_result in Hrun as [_ ->].
Qed.

Lemma clear_cart_ok s u : store_ok s → store_ok (after (clear_cart u) s).
Proof.
  intros Hok. destruct (clear_cart_run s u Hok) as (s' & Hrun & Hok' & _).
  by apply run_result in Hrun as [_ ->].
Qed.

(** Every state that calls lead to from a well-formed store is well-formed,
    in particular every state a [CartManager] reaches from [init]. *)
Lemma perform_ok c s : store_ok s → store_ok (perform c s).
Proof.
  intros Hok. destruct c; cbn [perform].
  - unfold after. rewrite get_cart_eq. by apply got_view.
  - by apply add_item_ok.
  - by apply remove_item_ok.
  - by apply update_quantity_ok.
  - unfold after. rewrite get_item_quantity_run by done. by apply got_view.
  - by apply clear_cart_ok.
  - unfold after. rewrite get_cart_total_run. by apply got_view.
  - unfold after. rewrite get_cart_item_count_run by done. by apply got_view.
  - unfold after. rewrite is_cart_empty_run by done. by apply got_view.
Qed.

Lemma perform_all_ok cs s : store_ok s → store_ok (perform_all cs s).
Proof.
  revert s. induction cs as [|c cs IH]; intros s Hok; [done|].
  cbn. by apply IH, perform_ok.
Qed.

Lemma reachable_ok cs : store_ok (perform_all cs init).
Proof. apply perform_all_ok, store_ok_init. Qed.

(** C7: with a capacity of at least one item, two [add_item] calls in a row
    with quantity 1 for an item id that the user's cart does not contain
    leave the stored quantity 2 for it. *)
Theorem add_item_twice_accumulates s u i :
  store_ok s →
  1 ≤ MAX_CART_ITEMS →
  user_items s u !! i = None →
  user_items (after (add_item u i 1) (after (add_item u i 1) s)) u !! i = Some 2 ∧
  result (get_item_quantity u i)
    (after (add_item u i 1) (after (add_item u i 1) s)) = Value 2.
Proof.
  intros Hok Hmax Hnew.
  cut (user_items (after (add_item u i 1) (after (add_item u i 1) s)) u !! i = Some 2).
  { intros Htwo. split; [done|]. unfold result.
    rewrite get_item_quantity_run by (by do 2 apply add_item_ok).
    cbn [fst]. by rewrite Htwo. }
  assert (user_items (after (add_item u i 1) s) u = add_to (user_items s u) i 1) as H1.
  { apply add_item_user_items; [done|].
    destruct (view s !! u) as [its|] eqn:Hu; [left; by eexists|right].
    destruct (add_item_run s u i 1 Hok) as (s' & Hrun & _ & _).
    apply run_result in Hrun as [-> _]. f_equal. apply bool_decide_eq_true_2.
    rewrite add_to_size_new by done.
    rewrite (user_items_None _ _ Hu), map_size_empty. lia. }
  assert (is_Some (view (after (add_item u i 1) s) !! u)) as Hsome.
  { destruct (view (after (add_item u i 1) s) !! u) as [its|] eqn:Hu; [by eexists|].
    apply user_items_None in Hu. rewrite H1 in Hu.
    apply (f_equal (λ m, m !! i)) in Hu.
    by rewrite add_to_lookup, lookup_empty in Hu. }
  rewrite add_item_user_items by (by try apply add_item_ok; auto).
  rewrite add_to_lookup, H1, add_to_lookup, Hnew. reflexivity.
Qed.

(** C8: [update_quantity] with a quantity [q ≤ 0] is [remove_item]: the item
    has no entry afterwards and [get_item_quantity] returns 0; with [q > 0]
    the stored quantity is exactly [q], and [get_item_quantity] returns it. *)
Theorem update_quantity_sets_or_removes s u i q :
  store_ok s →
  (q ≤ 0 →
     update_quantity u i q s = remove_item u i s ∧
     user_items (after (update_quantity u i q) s) u !! i = None ∧
     result (get_item_quantity u i) (after (update_quantity u i q) s) = Value 0) ∧
  (0 < q →
     user_items (after (update_quantity u i q) s) u !! i = Some q ∧
     result (get_item_quantity u i) (after (update_quantity u i q) s) = Value q).
Proof.
  intros Hok. split; intros Hq.
  - assert (user_items (after (update_quantity u i q) s) u !! i = None) as Hgone.
    { unfold after. rewrite update_quantity_nonpositive by done.
      destruct (remove_item_run s u i Hok) as (s' & Hrun & _ & Hview).
      rewrite Hrun. cbn [snd]. unfold user_items at 1. rewrite Hview.
      case_bool_decide as Hfound.
      - rewrite lookup_insert_eq. cbn. apply lookup_delete_eq.
      - by apply eq_None_not_Some. }
    split; [by apply update_quantity_nonpositive|]. split; [done|].
    unfold result. rewrite get_item_quantity_run by (by apply update_quantity_ok).
    cbn [fst]. by rewrite Hgone.
  - assert (user_items (after (update_quantity u i q) s) u !! i = Some q) as Hset.
    { destruct (update_quantity_run s u i q Hok Hq) as (s' & Hrun & _ & Hview).
      apply run_result in Hrun as [_ ->].
      unfold user_items at 1. rewrite Hview, lookup_insert_eq. cbn.
      apply lookup_insert_eq. }
    split; [done|].
    unfold result. rewrite get_item_quantity_run by (by apply update_quantity_ok).
    cbn [fst]. by rewrite Hset.
Qed.

(** C9: a user without a cart in the store and a user whose stored cart has
    an empty items mapping get the same answer from every read: the items
    mapping of [get_cart]'s result, [get_item_quantity], [get_cart_total],
    [get_cart_item_count] and [is_cart_empty]. *)
Theorem no_cart_reads_as_empty_cart s1 s2 u i menu_items :
  store_ok s1 →
  store_ok s2 →
  carts s1 !! u = None →
  view s2 !! u = Some ∅ →
  (∃ c1 c2, result (read_cart u) s1 = Value c1 ∧
            result (read_cart u) s2 = Value c2 ∧
            items c1 = items c2) ∧
  result (get_item_quantity u i) s1 = result (get_item_quantity u i) s2 ∧
  result (get_cart_total u menu_items) s1 = result (get_cart_total u menu_items) s2 ∧
  result (get_cart_item_count u) s1 = result (get_cart_item_count u) s2 ∧
  result (is_cart_empty u) s1 = result (is_cart_empty u) s2.
Proof.
  intros Hok1 Hok2 Hnone%view_lookup_None%user_items_None Hempty%user_items_lookup.
  split; [|repeat split].
  - destruct (read_cart_run s1 u Hok1) as (c1 & Hrun1 & Hits1).
    destruct (read_cart_run s2 u Hok2) as (c2 & Hrun2 & Hits2).
    exists c1, c2. unfold result. rewrite Hrun1, Hrun2. cbn [fst].
    by rewrite Hits1, Hits2, Hnone, Hempty.
  - unfold result. rewrite !get_item_quantity_run by done. cbn [fst].
    by rewrite Hnone, Hempty.
  - unfold result. by rewrite !get_cart_total_run.
  - unfold result. rewrite !get_cart_item_count_run by done. cbn [fst].
    by rewrite Hnone, Hempty.
  - unfold result. rewrite !is_cart_empty_run by done. cbn [fst].
    by rewrite Hnone, Hempty.
Qed.

(** C10: when [remove_item] deletes the only entry of a user's cart, the
    user keeps a cart in the store, with an empty items mapping, and a
    following [clear_cart] returns [True]; [clear_cart] for a user without a
    cart in the store returns [False]. *)
Theorem drained_cart_stays_in_store s u i q :
  store_ok s →
  view s !! u = Some {[i := q]} →
  result (remove_item u i) s = Value true ∧
  view (after (remove_item u i) s) !! u = Some ∅ ∧
  result (clear_cart u) (after (remove_item u i) s) = Value true ∧
  ∀ s0, carts s0 !! u = None → result (clear_cart u) s0 = Value false.
Proof.
  intros Hok Hu. pose proof (user_items_lookup _ _ _ Hu) as Hits.
  destruct (remove_item_run s u i Hok) as (s' & Hrun & Hok' & Hview).
  apply run_result in Hrun as [Hres Hafter]. rewrite Hafter, Hres.
  rewrite Hits, lookup_singleton_eq in Hview, Hres |- *.
  rewrite bool_decide_eq_true_2 in Hview |- * by (by eexists).
  rewrite delete_singleton_eq in Hview.
  assert (view s' !! u = Some ∅) as Hu' by (by rewrite Hview, lookup_insert_eq).
  split; [done|]. split; [done|]. split.
  - destruct (clear_cart_run s' u Hok') as (s'' & Hrun & _).
    apply run_result in Hrun as [-> _]. f_equal.
    apply bool_decide_eq_true_2. by rewrite Hu'.
  - intros s0 Hnone.
    unfold result, clear_cart, try_except, bind, carts_contains. cbn.
    rewrite Hnone. rewrite bool_decide_eq_false_2 by (by intros [? ?]). done.
Qed.

(** ** Further properties of the class *)

Lemma bind_run {A B} (m : M A) (k : A → M B) s a s' :
  m s = (Value a, s') → bind m k s = k a s'.
Proof. unfold bind. by intros ->. Qed.

Lemma remove_item_effect s u i :
  store_ok s →
  result (remove_item u i) s = Value (bool_decide (is_Some (user_items s u !! i))) ∧
  store_ok (after (remove_item u i) s) ∧
  user_items (after (remove_item u i) s) u = delete i (user_items s u) ∧
  ∀ u', u' ≠ u → view (after (remove_item u i) s) !! u' = view s !! u'.
Proof.
  intros Hok.
  destruct (remove_item_run s u i Hok) as (s' & Hrun & Hok' & Hview).
  apply run_result in Hrun as [-> ->]. split; [done|]. split; [done|].
  split.
  - unfold user_items at 1. rewrite Hview. case_bool_decide as Hfound.
    + by rewrite lookup_insert_eq.
    + change (default ∅ (view s !! u)) with (user_items s u).
      symmetry. apply delete_id. by apply eq_None_not_Some.
  - intros u' Hne. rewrite Hview.
    case_bool_decide; [by rewrite lookup_insert_ne|done].
Qed.

Lemma update_quantity_effect s u i q :
  store_ok s → 0 < q →
  result (update_quantity u i q) s = Value true ∧
  store_ok (after (update_quantity u i q) s) ∧
  user_items (after (update_quantity u i q) s) u = <[i := q]> (user_items s u) ∧
  ∀ u', u' ≠ u → view (after (update_quantity u i q) s) !! u' = view s !! u'.
Proof.
  intros Hok Hq.
  destruct (update_quantity_run s u i q Hok Hq) as (s' & Hrun & Hok' & Hview).
  apply run_result in Hrun as [-> ->]. split; [done|]. split; [done|].
  split.
  - unfold user_items at 1. by rewrite Hview, lookup_insert_eq.
  - intros u' Hne. by rewrite Hview, lookup_insert_ne.
Qed.

Lemma run_view {A} (m : M A) s (a : A) s' v :
  m s = (Value a, s') → view s' = v → view (after m s) = v.
Proof. unfold after. by intros -> <-. Qed.

(** X1: In every state that a sequence of calls leads to from the empty store,
    each user's reference points to a cart object with an items mapping,
    and no two users share a cart object. *)
Theorem reachable_states_well_formed cs u1 l :
  carts (perform_all cs init) !! u1 = Some l →
  (∃ c its, heap (perform_all cs init) !! l = Some c ∧ items c = Some its) ∧
  (∀ u2, carts (perform_all cs init) !! u2 = Some l → u1 = u2).
Proof.
  intros Hu. pose proof (perform_all_ok cs init store_ok_init) as Hok.
  split; [by apply (store_ok_lookup (perform_all cs init) u1)|].
  intros u2 Hu2. by apply (store_ok_inj (perform_all cs init) u1 u2 l).
Qed.

(** X2: A mutator called for one user leaves the items of every other user as
    they were. *)
Theorem mutators_leave_other_users s u u' i q :
  store_ok s →
  u' ≠ u →
  view (after (add_item u i q) s) !! u' = view s !! u' ∧
  view (after (remove_item u i) s) !! u' = view s !! u' ∧
  view (after (update_quantity u i q) s) !! u' = view s !! u' ∧
  view (after (clear_cart u) s) !! u' = view s !! u'.
Proof.
  intros Hok Hne. repeat split.
  - destruct (add_item_run s u i q Hok) as (s' & Hrun & _ & Hview).
    rewrite (run_view _ _ _ _ _ Hrun Hview).
    destruct (_ || _); [by rewrite lookup_insert_ne|done].
  - destruct (remove_item_run s u i Hok) as (s' & Hrun & _ & Hview).
    rewrite (run_view _ _ _ _ _ Hrun Hview).
    destruct (bool_decide _); [by rewrite lookup_insert_ne|done].
  - destruct (decide (q ≤ 0)) as [Hq|Hq].
    + unfold after. rewrite update_quantity_nonpositive by done.
      destruct (remove_item_run s u i Hok) as (s' & Hrun & _ & Hview).
      rewrite Hrun. cbn [snd]. rewrite Hview.
      destruct (bool_decide _); [by rewrite lookup_insert_ne|done].
    + destruct (update_quantity_run s u i q Hok) as (s' & Hrun & _ & Hview); [lia|].
      rewrite (run_view _ _ _ _ _ Hrun Hview). by rewrite lookup_insert_ne.
  - destruct (clear_cart_run s u Hok) as (s' & Hrun & _ & Hview).
    rewrite (run_view _ _ _ _ _ Hrun Hview). by rewrite lookup_delete_ne.
Qed.

(** X3: The reads change nothing a caller can see in the store: [get_cart] for a
    user without a cart does not store the cart it returns, and the same
    goes for the four reads built on it. *)
Theorem reads_leave_store s u i menu_items :
  store_ok s →
  view (after (get_cart u) s) = view s ∧
  view (after (get_item_quantity u i) s) = view s ∧
  view (after (get_cart_total u menu_items) s) = view s ∧
  view (after (get_cart_item_count u) s) = view s ∧
  view (after (is_cart_empty u) s) = view s.
Proof.
  intros Hok. pose proof (proj2 (got_view s Hok)) as Hgot.
  unfold after.
  rewrite get_cart_eq, get_item_quantity_run, get_cart_total_run,
    get_cart_item_count_run, is_cart_empty_run by done.
  by repeat split.
Qed.

(** X4: [remove_item] returns [True] exactly when the item id is in the user's
    cart, and then only that entry goes; for a missing id it returns [False]
    and the store reads as before. *)
Theorem remove_item_reports_deletion s u i :
  store_ok s →
  (is_Some (user_items s u !! i) →
     result (remove_item u i) s = Value true ∧
     user_items (after (remove_item u i) s) u = delete i (user_items s u)) ∧
  (user_items s u !! i = None →
     result (remove_item u i) s = Value false ∧
     view (after (remove_item u i) s) = view s).
Proof.
  intros Hok.
  destruct (remove_item_run s u i Hok) as (s' & Hrun & _ & Hview).
  apply run_result in Hrun as [Hres Hafter]. rewrite Hafter, Hres.
  split; intros Hi.
  - rewrite (bool_decide_eq_true_2 _ Hi) in Hview |- *. split; [done|].
    unfold user_items at 1. by rewrite Hview, lookup_insert_eq.
  - assert (¬ is_Some (user_items s u !! i)) as Hno by (rewrite Hi; by intros [? ?]).
    rewrite (bool_decide_eq_false_2 _ Hno) in Hview |- *. done.
Qed.

(** X5: [clear_cart] returns whether the user had a cart in the store; after it
    the user has none, reads as empty, and a second [clear_cart] returns
    [False]. *)
Theorem clear_cart_empties s u i :
  store_ok s →
  result (clear_cart u) s = Value (bool_decide (is_Some (carts s !! u))) ∧
  carts (after (clear_cart u) s) !! u = None ∧
  user_items (after (clear_cart u) s) u = ∅ ∧
  result (is_cart_empty u) (after (clear_cart u) s) = Value true ∧
  result (get_item_quantity u i) (after (clear_cart u) s) = Value 0 ∧
  result (clear_cart u) (after (clear_cart u) s) = Value false.
Proof.
  intros Hok.
  destruct (clear_cart_run s u Hok) as (s' & Hrun & Hok' & Hview).
  apply run_result in Hrun as [Hres Hafter]. rewrite Hafter, Hres.
  assert (view s' !! u = None) as Hnone by (by rewrite Hview, lookup_delete_eq).
  assert (user_items s' u = ∅) as Hits by (by apply user_items_None).
  split; [|split; [|split; [|split; [|split]]]].
  - f_equal. apply bool_decide_ext. rewrite view_lookup. apply fmap_is_Some.
  - by apply view_lookup_None.
  - done.
  - unfold result. rewrite is_cart_empty_run by done. cbn [fst].
    by rewrite Hits, map_size_empty.
  - unfold result. rewrite get_item_quantity_run by done. cbn [fst].
    by rewrite Hits, lookup_empty.
  - destruct (clear_cart_run s' u Hok') as (s'' & Hrun & _).
    apply run_result in Hrun as [-> _]. f_equal.
    apply bool_decide_eq_false_2. rewrite Hnone. by intros [? ?].
Qed.

Lemma foldl_add_shift (l : list Z) (a : Z) :
  foldl Z.add a l = a + foldl Z.add 0 l.
Proof.
  revert a. induction l as [|x l IH]; intros a; cbn; [lia|].
  rewrite (IH (a + x)), (IH (0 + x)). lia.
Qed.

Lemma foldl_add_perm (l1 l2 : list Z) :
  l1 ≡ₚ l2 → foldl Z.add 0 l1 = foldl Z.add 0 l2.
Proof.
  induction 1 as [|x l1 l2 _ IH|x y l|l1 l2 l3 _ IH1 _ IH2]; cbn.
  - done.
  - by rewrite (foldl_add_shift l1), (foldl_add_shift l2), IH.
  - f_equal. lia.
  - congruence.
Qed.

Lemma sum_quantities_empty : sum_quantities ∅ = 0.
Proof. unfold sum_quantities. by rewrite map_to_list_empty. Qed.

Lemma sum_quantities_insert_new its i q :
  its !! i = None → sum_quantities (<[i := q]> its) = q + sum_quantities its.
Proof.
  intros Hi. unfold sum_quantities.
  rewrite (foldl_add_perm _ (q :: (map_to_list its).*2)).
  - cbn. apply foldl_add_shift.
  - by rewrite map_to_list_insert.
Qed.

Lemma sum_quantities_delete its i q0 :
  its !! i = Some q0 → sum_quantities its = q0 + sum_quantities (delete i its).
Proof.
  intros Hi. rewrite <- (insert_delete_id its i q0) at 1 by done.
  apply sum_quantities_insert_new, lookup_delete_eq.
Qed.

Lemma sum_quantities_add_to its i q :
  sum_quantities (add_to its i q) = sum_quantities its + q.
Proof.
  unfold add_to. destruct (its !! i) as [q0|] eqn:Hi.
  - rewrite <- insert_delete_eq.
    rewrite sum_quantities_insert_new by apply lookup_delete_eq.
    rewrite (sum_quantities_delete its i q0) by done. lia.
  - rewrite sum_quantities_insert_new by done. lia.
Qed.

Lemma sum_quantities_positive its :
  map_Forall (λ (_ : string) (q : Z), 0 < q) its →
  Z.of_nat (size its) ≤ sum_quantities its.
Proof.
  induction its as [|i q its Hi IH] using map_ind; intros Hpos.
  - by rewrite map_size_empty, sum_quantities_empty.
  - apply map_Forall_insert in Hpos as [Hq Hpos]; [|done].
    rewrite map_size_insert_None, sum_quantities_insert_new by done.
    specialize (IH Hpos). lia.
Qed.

(** X6: [get_cart_item_count] is the sum of the stored quantities, and
    [add_item] raises it by exactly the quantity added, for a user who has a
    cart in the store or whose call succeeded. *)
Theorem add_item_raises_count s u i q :
  store_ok s →
  is_Some (view s !! u) ∨ result (add_item u i q) s = Value true →
  result (get_cart_item_count u) s = Value (sum_quantities (user_items s u)) ∧
  result (get_cart_item_count u) (after (add_item u i q) s) =
    Value (sum_quantities (user_items s u) + q).
Proof.
  intros Hok Hcase. split.
  - unfold result. by rewrite get_cart_item_count_run.
  - unfold result at 1. rewrite get_cart_item_count_run by (by apply add_item_ok).
    cbn [fst]. rewrite add_item_user_items by done.
    f_equal. apply sum_quantities_add_to.
Qed.

(** X7: Adding an item id that was not in the cart and removing it again gives
    back the items the user had. *)
Theorem add_then_remove_restores s u i q :
  store_ok s →
  user_items s u !! i = None →
  is_Some (view s !! u) ∨ result (add_item u i q) s = Value true →
  result (remove_item u i) (after (add_item u i q) s) = Value true ∧
  user_items (after (remove_item u i) (after (add_item u i q) s)) u = user_items s u.
Proof.
  intros Hok Hnew Hcase.
  pose proof (add_item_user_items s u i q Hok Hcase) as Hadd.
  assert (is_Some (user_items (after (add_item u i q) s) u !! i)) as Hin.
  { rewrite Hadd, add_to_lookup. by eexists. }
  destruct (remove_item_effect (after (add_item u i q) s) u i)
    as (Hres & _ & Hitems & _); [by apply add_item_ok|].
  rewrite Hres, (bool_decide_eq_true_2 _ Hin). split; [done|].
  rewrite Hitems, Hadd. unfold add_to. rewrite Hnew.
  by apply delete_insert_id.
Qed.

(** X8: Of two [update_quantity] calls with positive quantities for the same
    item the second one wins: the store reads as if only it had been made. *)
Theorem update_quantity_last_wins s u i q1 q2 :
  store_ok s →
  0 < q1 →
  0 < q2 →
  view (after (update_quantity u i q2) (after (update_quantity u i q1) s)) =
  view (after (update_quantity u i q2) s).
Proof.
  intros Hok Hq1 Hq2.
  destruct (update_quantity_run s u i q1 Hok Hq1) as (s1 & Hrun1 & Hok1 & Hview1).
  apply run_result in Hrun1 as [_ ->].
  destruct (update_quantity_run s1 u i q2 Hok1 Hq2) as (s2 & Hrun2 & _ & Hview2).
  apply run_result in Hrun2 as [_ ->].
  destruct (update_quantity_run s u i q2 Hok Hq2) as (s3 & Hrun3 & _ & Hview3).
  apply run_result in Hrun3 as [_ ->].
  rewrite Hview2, Hview3. unfold user_items at 1.
  rewrite Hview1, lookup_insert_eq. cbn.
  by rewrite !insert_insert_eq.
Qed.

(** X9: The capacity counts distinct item ids.  [add_item] for an id already in
    the cart returns [True] exactly when the cart holds at most
    [MAX_CART_ITEMS] ids; for a new id, exactly when one more id still
    fits.  The quantity plays no part. *)
Theorem add_item_accepts_iff s u i q :
  store_ok s →
  (is_Some (user_items s u !! i) →
     (result (add_item u i q) s = Value true ↔
      Z.of_nat (size (user_items s u)) ≤ MAX_CART_ITEMS)) ∧
  (user_items s u !! i = None →
     (result (add_item u i q) s = Value true ↔
      Z.of_nat (size (user_items s u)) + 1 ≤ MAX_CART_ITEMS)).
Proof.
  intros Hok.
  destruct (add_item_run s u i q Hok) as (s' & Hrun & _ & _).
  apply run_result in Hrun as [-> _].
  assert (∀ b : bool, Value b = Value true ↔ b = true) as Hval
    by (intros b; split; [by intros [= ->]|by intros ->]).
  rewrite Hval, bool_decide_eq_true.
  split; intros Hi.
  - destruct Hi as [q0 Hq0]. unfold add_to. rewrite Hq0.
    by rewrite map_size_insert_Some by eauto.
  - rewrite add_to_size_new by done. lia.
Qed.

(** X10: When every stored quantity is positive, [is_cart_empty] returns [True]
    exactly when [get_cart_item_count] returns 0, and the count is at least
    the number of distinct item ids. *)
Theorem empty_iff_count_zero s u :
  store_ok s →
  quantities_positive s →
  (result (is_cart_empty u) s = Value true ↔
   result (get_cart_item_count u) s = Value 0) ∧
  ∃ n, result (get_cart_item_count u) s = Value n ∧
       Z.of_nat (size (user_items s u)) ≤ n.
Proof.
  intros Hok Hpos. unfold result.
  rewrite is_cart_empty_run, get_cart_item_count_run by done. cbn [fst].
  fold (sum_quantities (user_items s u)).
  pose proof (sum_quantities_positive _ (user_items_positive s u Hpos)) as Hle.
  split; [|by eexists].
  split.
  - intros [= Hempty]. apply bool_decide_eq_true_1, map_size_empty_inv in Hempty.
    by rewrite Hempty, sum_quantities_empty.
  - intros [= Hzero]. f_equal. apply bool_decide_eq_true_2. lia.
Qed.

Lemma stored_cart_Some s u c :
  stored_cart s u = Some c ↔ ∃ l, carts s !! u = Some l ∧ heap s !! l = Some c.
Proof. unfold stored_cart. apply bind_Some. Qed.

Lemma got_lookup s u l c :
  carts s !! u = Some l → heap s !! l = Some c → heap (got s) !!! l = c.
Proof.
  intros Hu Hl. apply lookup_total_correct.
  rewrite got_frame by (by rewrite Hl). done.
Qed.

(** The cart object a user has in the store after [add_item]. *)
Lemma add_item_stored s u c its i q :
  stored_cart s u = Some c → items c = Some its →
  let fits := bool_decide (Z.of_nat (size (add_to its i q)) ≤ MAX_CART_ITEMS) in
  result (add_item u i q) s = Value fits ∧
  stored_cart (after (add_item u i q) s) u =
    Some (mkCart (Some (add_to its i q))
            (if fits
             then Some (default (wall_clock (3 + ticks s)) (created_at c))
             else created_at c)
            (if fits then Some (wall_clock (2 + ticks s)) else updated_at c)).
Proof.
  intros (l & Hu & Hl)%stored_cart_Some Hits fits.
  pose proof (got_lookup s u l c Hu Hl) as Hc.
  match goal with
  | |- _ ∧ _ = Some ?c' =>
      cut (∃ s', add_item u i q s = (Value fits, s') ∧ stored_cart s' u = Some c')
  end.
  { intros (s' & Hrun & Hst). unfold result, after. by rewrite Hrun. }
  unfold add_item, try_except.
  rewrite bind_get_cart, Hu. cbn [default from_option id].
  rewrite bind_load, Hc.
  unfold has_items at 1. rewrite Hits. cbv beta iota. rewrite bind_ret.
  rewrite (bind_subscript_items _ its) by (by rewrite Hc).
  set (v := match its !! i with Some q0 => q0 + q | None => q end).
  replace (match its !! i with
           | Some q0 => items_setitem l i (q0 + q)
           | None => items_setitem l i q
           end) with (items_setitem l i v)
    by (subst v; by destruct (its !! i)).
  assert (add_to its i q = <[i := v]> its) as Hits'
    by (subst v; unfold add_to; by destruct (its !! i)).
  rewrite (bind_items_setitem _ _ _ its) by (by rewrite Hc).
  rewrite <- Hits', Hc.
  rewrite (bind_subscript_items _ (add_to its i q))
    by (cbn [heap]; by rewrite lookup_total_insert_eq).
  cbv beta. case_bool_decide as Hsize.
  - assert (fits = false) as -> by (apply bool_decide_eq_false_2; lia).
    eexists. split; [reflexivity|].
    unfold stored_cart. cbn. rewrite Hu. stored_cart_now.
  - assert (fits = true) as -> by (apply bool_decide_eq_true_2; lia).
    rewrite bind_now, bind_update, bind_load. cbn [heap carts ticks].
    rewrite !lookup_total_insert_eq.
    unfold has_created_at. cbn [created_at set_updated_at set_items].
    destruct (created_at c) as [t0|] eqn:Hcreated; cbv beta iota.
    + rewrite bind_ret, bind_carts_set.
      eexists. split; [reflexivity|].
      stored_cart_now.
    + rewrite bind_assoc, bind_now, bind_update, bind_carts_set.
      eexists. split; [reflexivity|].
      stored_cart_now.
Qed.

(** X11: The cart object that a successful [add_item] stores for a user who had
    none. *)
Lemma add_item_new_cart s u i q :
  carts s !! u = None → 1 ≤ MAX_CART_ITEMS →
  result (add_item u i q) s = Value true ∧
  stored_cart (after (add_item u i q) s) u =
    Some (mkCart (Some {[i := q]})
            (Some (wall_clock (ticks s))) (Some (wall_clock (2 + ticks s)))).
Proof.
  intros Hu Hmax.
  match goal with
  | |- _ ∧ _ = Some ?c' =>
      cut (∃ s', add_item u i q s = (Value true, s') ∧ stored_cart s' u = Some c')
  end.
  { intros (s' & Hrun & Hst). unfold result, after. by rewrite Hrun. }
  unfold add_item, try_except.
  rewrite bind_get_cart, Hu. cbn [default from_option].
  set (r := fresh (dom (heap s))).
  assert (heap (got s) !!! r = default_cart s) as Hc
    by apply lookup_total_insert_eq.
  rewrite bind_load, Hc. cbn [has_items default_cart items]. rewrite bind_ret.
  rewrite (bind_subscript_items _ ∅) by (by rewrite Hc).
  rewrite lookup_empty.
  rewrite (bind_items_setitem _ _ _ ∅) by (by rewrite Hc).
  rewrite Hc.
  rewrite (bind_subscript_items _ (<[i := q]> ∅))
    by (cbn [heap]; by rewrite lookup_total_insert_eq).
  rewrite bool_decide_eq_false_2
    by (rewrite map_size_insert_None, map_size_empty by apply lookup_empty; lia).
  rewrite bind_now, bind_update, bind_load. cbn [heap carts ticks].
  rewrite !lookup_total_insert_eq.
  cbn [has_created_at created_at set_updated_at set_items default_cart].
  rewrite bind_ret, bind_carts_set.
  eexists. split; [reflexivity|].
  stored_cart_now.
Qed.

(** The cart object a user has in the store after [remove_item]. *)
Lemma remove_item_stored s u c its i :
  stored_cart s u = Some c → items c = Some its →
  stored_cart (after (remove_item u i) s) u =
    Some (if bool_decide (is_Some (its !! i))
          then mkCart (Some (delete i its)) (created_at c)
                 (Some (wall_clock (2 + ticks s)))
          else c).
Proof.
  intros (l & Hu & Hl)%stored_cart_Some Hits.
  pose proof (got_lookup s u l c Hu Hl) as Hc.
  match goal with
  | |- _ = Some ?c' =>
      cut (∃ b s', remove_item u i s = (Value b, s') ∧ stored_cart s' u = Some c')
  end.
  { intros (b & s' & Hrun & Hst). unfold after. by rewrite Hrun. }
  unfold remove_item, try_except.
  rewrite bind_get_cart, Hu. cbn [default from_option id].
  rewrite bind_load, Hc.
  unfold has_items, items_or_empty. rewrite Hits. cbn [default from_option id andb].
  case_bool_decide as Hfound.
  - rewrite (bind_items_delitem _ _ its) by (by rewrite ?Hc).
    rewrite Hc, bind_now, bind_update, bind_carts_set.
    do 2 eexists. split; [reflexivity|].
    stored_cart_now.
  - do 2 eexists. split; [reflexivity|].
    unfold stored_cart. change (carts (got s)) with (carts s). rewrite Hu.
    cbn [mbind option_bind]. rewrite got_frame by (by rewrite Hl). done.
Qed.

(** The cart object a user has in the store after [update_quantity] with a
    positive quantity. *)
Lemma update_quantity_stored s u c its i q :
  stored_cart s u = Some c → items c = Some its → 0 < q →
  stored_cart (after (update_quantity u i q) s) u =
    Some (mkCart (Some (<[i := q]> its)) (created_at c)
            (Some (wall_clock (2 + ticks s)))).
Proof.
  intros (l & Hu & Hl)%stored_cart_Some Hits Hq.
  pose proof (got_lookup s u l c Hu Hl) as Hc.
  match goal with
  | |- _ = Some ?c' =>
      cut (∃ b s', update_quantity u i q s = (Value b, s') ∧ stored_cart s' u = Some c')
  end.
  { intros (b & s' & Hrun & Hst). unfold after. by rewrite Hrun. }
  unfold update_quantity, try_except.
  rewrite bool_decide_eq_false_2 by lia.
  rewrite bind_get_cart, Hu. cbn [default from_option id].
  rewrite bind_load, Hc.
  unfold has_items. rewrite Hits. cbv beta iota.
  rewrite (bind_items_setitem _ _ _ its) by (by rewrite Hc).
  rewrite Hc, bind_now, bind_update, bind_carts_set.
  do 2 eexists. split; [reflexivity|].
  stored_cart_now.
Qed.

Lemma stored_cart_items s u c :
  store_ok s → stored_cart s u = Some c → items c = Some (user_items s u).
Proof.
  intros Hok (l & Hu & Hl)%stored_cart_Some.
  destruct (store_ok_lookup _ _ _ Hok Hu) as (c0 & its & Hc0 & Hits).
  assert (c0 = c) as -> by congruence.
  by rewrite (user_items_lookup _ _ _ (view_lookup_Some _ _ _ _ _ Hu Hl Hits)).
Qed.

(** X12: No mutator changes the [created_at] of a cart that is in the store. *)
Theorem created_at_never_changes s u i q c t :
  store_ok s →
  stored_cart s u = Some c →
  created_at c = Some t →
  (∃ c', stored_cart (after (add_item u i q) s) u = Some c' ∧
         created_at c' = Some t) ∧
  (∃ c', stored_cart (after (remove_item u i) s) u = Some c' ∧
         created_at c' = Some t) ∧
  (∃ c', stored_cart (after (update_quantity u i q) s) u = Some c' ∧
         created_at c' = Some t).
Proof.
  intros Hok Hc Ht. pose proof (stored_cart_items s u c Hok Hc) as Hits.
  assert (∃ c', stored_cart (after (remove_item u i) s) u = Some c' ∧
                created_at c' = Some t) as Hremove.
  { rewrite (remove_item_stored s u c _ i Hc Hits).
    eexists. split; [done|]. by destruct (bool_decide _). }
  split; [|split; [done|]].
  - destruct (add_item_stored s u c _ i q Hc Hits) as [_ ->].
    eexists. split; [done|]. cbn. rewrite Ht. by destruct (bool_decide _).
  - destruct (decide (q ≤ 0)) as [Hq|Hq].
    + unfold after. rewrite update_quantity_nonpositive by done. apply Hremove.
    + rewrite (update_quantity_stored s u c _ i q Hc Hits) by lia.
      by eexists.
Qed.

(** X13: [updated_at] of a stored cart records the mutations that took effect:
    an [add_item] that returns [True], a [remove_item] that found the item
    and an [update_quantity] with a positive quantity set it to the clock
    reading of the call; an [add_item] that returns [False] leaves it alone
    although the items have changed, and a [remove_item] that found nothing
    leaves the whole cart alone. *)
Theorem updated_at_tracks_effect s u i q c :
  store_ok s →
  stored_cart s u = Some c →
  (∃ c', stored_cart (after (add_item u i q) s) u = Some c' ∧
         items c' = Some (add_to (user_items s u) i q) ∧
         (result (add_item u i q) s = Value true →
            updated_at c' = Some (wall_clock (2 + ticks s))) ∧
         (result (add_item u i q) s = Value false →
            updated_at c' = updated_at c)) ∧
  (is_Some (user_items s u !! i) →
     ∃ c', stored_cart (after (remove_item u i) s) u = Some c' ∧
           updated_at c' = Some (wall_clock (2 + ticks s))) ∧
  (user_items s u !! i = None →
     stored_cart (after (remove_item u i) s) u = Some c) ∧
  (0 < q →
     ∃ c', stored_cart (after (update_quantity u i q) s) u = Some c' ∧
           updated_at c' = Some (wall_clock (2 + ticks s))).
Proof.
  intros Hok Hc. pose proof (stored_cart_items s u c Hok Hc) as Hits.
  split; [|split; [|split]].
  - destruct (add_item_stored s u c _ i q Hc Hits) as [-> ->].
    eexists. split; [done|]. split; [done|].
    split; intros [= Hfits]; by rewrite Hfits.
  - intros Hfound. rewrite (remove_item_stored s u c _ i Hc Hits).
    rewrite (bool_decide_eq_true_2 _ Hfound). by eexists.
  - intros Hnone. rewrite (remove_item_stored s u c _ i Hc Hits).
    rewrite bool_decide_eq_false_2; [done|]. rewrite Hnone. by intros [? ?].
  - intros Hq. rewrite (update_quantity_stored s u c _ i q Hc Hits Hq).
    by eexists.
Qed.

(** ** The class of [add_cart_system.py] *)

(** A method that has written the items [its'] into the object [r], the
    user's own or a new one, has touched no other object that was allocated
    before, and has bound [self.carts[u]] to [r] or not. *)
Lemma written_view_frame s s' u r its' (bound : bool) :
  store_ok s →
  carts s !! u = Some r ∨ carts s !! u = None ∧ heap s !! r = None →
  carts s' = (if bound then <[u := r]> (carts s) else carts s) →
  heap s' !! r ≫= items = Some its' →
  (∀ l, is_Some (heap s !! l) → l ≠ r → heap s' !! l = heap s !! l) →
  store_ok s' ∧
  view s' = if bool_decide (is_Some (view s !! u)) || bound
            then <[u := its']> (view s) else view s.
Proof.
  intros Hok Hr Hcarts Hnew Hframe.
  destruct Hr as [Hu|[Hu Hfree]].
  - assert (is_Some (view s !! u)) as Hsome.
    { rewrite view_lookup, Hu. by eexists. }
    rewrite (bool_decide_eq_true_2 _ Hsome). cbn.
    apply (view_write s s' u r); auto.
    destruct bound; [done|]. by rewrite insert_id.
  - assert (¬ is_Some (view s !! u)) as Hnone.
    { apply view_lookup_None in Hu. rewrite Hu. by intros [? ?]. }
    rewrite (bool_decide_eq_false_2 _ Hnone). cbn.
    destruct bound.
    + apply (view_write s s' u r); auto.
    + apply view_same; auto. intros l Hl. apply Hframe; [done|].
      intros ->. rewrite Hfree in Hl. by destruct Hl.
Qed.

Lemma basic_bind_get_cart {B} u (k : positive → M B) s :
  bind (AddCartSystem.get_cart u) k s =
  k (default (fresh (dom (heap s))) (carts s !! u)) (AddCartSystem.got s).
Proof. reflexivity. Qed.

Lemma basic_got_frame s l :
  is_Some (heap s !! l) → heap (AddCartSystem.got s) !! l = heap s !! l.
Proof.
  intros [c Hc]. cbn. apply lookup_insert_ne. intros <-.
  by rewrite fresh_unallocated in Hc.
Qed.

Lemma basic_get_cart_target s u :
  store_ok s →
  let r := default (fresh (dom (heap s))) (carts s !! u) in
  (carts s !! u = Some r ∨ carts s !! u = None ∧ heap s !! r = None) ∧
  ∃ c, heap (AddCartSystem.got s) !! r = Some c ∧ items c = Some (user_items s u).
Proof.
  intros Hok. unfold user_items. destruct (carts s !! u) as [l|] eqn:Hu; cbn.
  - split; [by left|].
    destruct (store_ok_lookup _ _ _ Hok Hu) as (c & its & Hc & Hits).
    exists c. rewrite (view_lookup_Some _ _ _ _ _ Hu Hc Hits). cbn.
    split; [|done]. rewrite <- Hc. apply (basic_got_frame s l). by rewrite Hc.
  - split; [right; split; [done|apply fresh_unallocated]|].
    apply view_lookup_None in Hu. rewrite Hu. cbn.
    eexists. split; [apply lookup_insert_eq|done].
Qed.

Lemma basic_frame s s' r :
  (∀ l, l ≠ r → heap s' !! l = heap (AddCartSystem.got s) !! l) →
  ∀ l, is_Some (heap s !! l) → l ≠ r → heap s' !! l = heap s !! l.
Proof. intros H l Hl Hne. rewrite H by done. by apply basic_got_frame. Qed.

Lemma basic_add_item_run s u i q :
  store_ok s →
  ∃ s', AddCartSystem.add_item u i q s = (Value true, s') ∧ store_ok s' ∧
        view s' = <[u := add_to (user_items s u) i q]> (view s).
Proof.
  intros Hok.
  destruct (basic_get_cart_target s u Hok) as (Hr & c & Hc & Hits).
  set (r := default (fresh (dom (heap s))) (carts s !! u)) in *.
  unfold AddCartSystem.add_item.
  rewrite basic_bind_get_cart. fold r.
  rewrite bind_load, (lookup_total_correct _ _ _ Hc).
  unfold has_items at 1. rewrite Hits. cbv beta iota. rewrite bind_ret.
  rewrite (bind_subscript_items _ (user_items s u))
    by (by rewrite (lookup_total_correct _ _ _ Hc)).
  set (v := match user_items s u !! i with Some q0 => q0 + q | None => q end).
  replace (match user_items s u !! i with
           | Some q0 => items_setitem r i (q0 + q)
           | None => items_setitem r i q
           end) with (items_setitem r i v)
    by (subst v; by destruct (user_items s u !! i)).
  assert (add_to (user_items s u) i q = <[i := v]> (user_items s u)) as Hits'
    by (subst v; unfold add_to; by destruct (user_items s u !! i)).
  rewrite (bind_items_setitem _ _ _ (user_items s u))
    by (by rewrite (lookup_total_correct _ _ _ Hc)).
  rewrite <- Hits', (lookup_total_correct _ _ _ Hc), bind_carts_set.
  eexists. split; [reflexivity|].
  replace (<[u := add_to (user_items s u) i q]> (view s))
    with (if bool_decide (is_Some (view s !! u)) || true
          then <[u := add_to (user_items s u) i q]> (view s) else view s)
    by (by rewrite orb_true_r).
  apply (written_view_frame s _ u r _ true); auto.
  - cbn. rewrite lookup_insert_eq. reflexivity.
  - apply basic_frame. intros l Hl. cbn.
    by rewrite !(lookup_insert_ne _ r) by congruence.
Qed.


Lemma basic_clear_cart_run s u :
  store_ok s →
  ∃ s', AddCartSystem.clear_cart u s = (Value true, s') ∧
        store_ok s' ∧ view s' = delete u (view s).
Proof.
  intros Hok.
  destruct (clear_cart_run s u Hok) as (s' & Hrun & Hok' & Hview).
  exists s'. split; [|done].
  revert Hrun. unfold clear_cart, AddCartSystem.clear_cart, try_except, bind,
    carts_contains, carts_del, ret. cbn.
  destruct (bool_decide (is_Some (carts s !! u))); cbn; congruence.
Qed.

(** X14: [add_item] of [add_cart_system.py] has no capacity: it always returns
    [True], adds the quantity to what was stored for the item (0 when
    absent) and leaves the other entries and the other users alone. *)
Theorem basic_add_item_always_adds s u i q :
  store_ok s →
  result (AddCartSystem.add_item u i q) s = Value true ∧
  user_items (after (AddCartSystem.add_item u i q) s) u !! i =
    Some (default 0 (user_items s u !! i) + q) ∧
  (∀ j, j ≠ i →
     user_items (after (AddCartSystem.add_item u i q) s) u !! j =
     user_items s u !! j) ∧
  (∀ u', u' ≠ u →
     view (after (AddCartSystem.add_item u i q) s) !! u' = view s !! u').
Proof.
  intros Hok.
  destruct (basic_add_item_run s u i q Hok) as (s' & Hrun & _ & Hview).
  apply run_result in Hrun as [-> ->].
  assert (user_items s' u = add_to (user_items s u) i q) as Hitems
    by (unfold user_items at 1; by rewrite Hview, lookup_insert_eq).
  split; [done|]. rewrite Hitems. split; [apply add_to_lookup|]. split.
  - intros j Hne. by apply add_to_lookup_ne.
  - intros u' Hne. by rewrite Hview, lookup_insert_ne.
Qed.



(** X17: [clear_cart] of [add_cart_system.py] returns [True] whether or not the
    user had a cart, where the other [clear_cart] tells the two apart; both
    leave the same store, in which the user has no cart. *)
Theorem clear_cart_implementations s u :
  result (AddCartSystem.clear_cart u) s = Value true ∧
  result (clear_cart u) s = Value (bool_decide (is_Some (carts s !! u))) ∧
  after (AddCartSystem.clear_cart u) s = after (clear_cart u) s ∧
  carts (after (AddCartSystem.clear_cart u) s) !! u = None.
Proof.
  unfold result, after, clear_cart, AddCartSystem.clear_cart, try_except, bind,
    carts_contains, carts_del, ret. cbn.
  destruct (carts s !! u) as [l|] eqn:Hu.
  - rewrite bool_decide_eq_true_2 by (by eexists). cbn.
    repeat split. apply lookup_delete_eq.
  - rewrite bool_decide_eq_false_2 by (by intros [? ?]). cbn. by repeat split.
Qed.

(** ** The handler [update_cart_quantity] *)

Lemma got_user_items s u : store_ok s → user_items (got s) u = user_items s u.
Proof. intros Hok. unfold user_items. by rewrite (proj2 (got_view s Hok)). Qed.

Lemma update_cart_quantity_run s u action i new_qty :
  store_ok s →
  new_quantity action (default 0 (user_items s u !! i)) = Some new_qty →
  result (update_cart_quantity u action i) s =
    Value (Some (if bool_decide (new_qty = 0) then ItemRemoved
                 else QuantityUpdated new_qty)) ∧
  store_ok (after (update_cart_quantity u action i) s) ∧
  user_items (after (update_cart_quantity u action i) s) u =
    (if bool_decide (0 < new_qty) then <[i := new_qty]> (user_items s u)
     else delete i (user_items s u)) ∧
  ∀ u', u' ≠ u →
    view (after (update_cart_quantity u action i) s) !! u' = view s !! u'.
Proof.
  intros Hok Hnew.
  pose proof (got_view s Hok) as [Hok0 Hview0].
  pose proof (got_user_items s u Hok) as Hits0.
  destruct (remove_item_run (got s) u i Hok0) as (s1 & Hrun1 & Hok1 & _).
  pose proof (remove_item_effect (got s) u i Hok0) as (_ & _ & Hitems1 & Hframe1).
  unfold after in Hitems1, Hframe1. rewrite Hrun1 in Hitems1, Hframe1.
  cbn [snd] in Hitems1, Hframe1. rewrite Hits0 in Hitems1.
  unfold result, after, update_cart_quantity.
  rewrite (bind_run _ _ _ _ _ (get_item_quantity_run s u i Hok)), Hnew.
  destruct (decide (new_qty = 0)) as [->|Hzero].
  - rewrite !(bool_decide_eq_true_2 (0 = 0)) by done.
    rewrite (bind_run _ _ _ _ _ Hrun1), bind_get_cart.
    cbn [ret fst snd]. rewrite (bool_decide_eq_false_2 (0 < 0)) by lia.
    pose proof (got_view s1 Hok1) as [Hok2 Hview2].
    split; [done|]. split; [done|]. split.
    + by rewrite got_user_items.
    + intros u' Hne. rewrite Hview2, Hframe1 by done. by rewrite Hview0.
  - rewrite !(bool_decide_eq_false_2 (new_qty = 0)) by done.
    destruct (decide (0 < new_qty)) as [Hpos|Hneg].
    + destruct (update_quantity_run (got s) u i new_qty Hok0 Hpos)
        as (s2 & Hrun2 & Hok2 & Hview2).
      rewrite (bind_run _ _ _ _ _ Hrun2). cbn [ret fst snd].
      rewrite (bool_decide_eq_true_2 _ Hpos).
      split; [done|]. split; [done|]. split.
      * unfold user_items at 1. by rewrite Hview2, lookup_insert_eq, Hits0.
      * intros u' Hne. by rewrite Hview2, lookup_insert_ne, Hview0.
    + rewrite (bind_run _ _ _ _ s1)
        by (rewrite update_quantity_nonpositive by lia; exact Hrun1).
      cbn [ret fst snd]. rewrite (bool_decide_eq_false_2 _ Hneg).
      split; [done|]. split; [done|]. split; [done|].
      intros u' Hne. rewrite Hframe1 by done. by rewrite Hview0.
Qed.

(** X18: After the handler has run for "increase" or "decrease", the item is
    either not in the cart or stored with a quantity of at least 1,
    whatever was stored before; the other entries of the cart and the other
    users are as before. *)
Theorem update_cart_quantity_never_leaves_nonpositive s u action i :
  store_ok s →
  action = "increase" ∨ action = "decrease" →
  (user_items (after (update_cart_quantity u action i) s) u !! i = None ∨
   ∃ q, user_items (after (update_cart_quantity u action i) s) u !! i = Some q ∧
        1 ≤ q) ∧
  (∀ j, j ≠ i →
     user_items (after (update_cart_quantity u action i) s) u !! j =
     user_items s u !! j) ∧
  (∀ u', u' ≠ u →
     view (after (update_cart_quantity u action i) s) !! u' = view s !! u').
Proof.
  intros Hok Haction.
  assert (∃ new_qty, new_quantity action (default 0 (user_items s u !! i)) =
                     Some new_qty) as [new_qty Hnew].
  { unfold new_quantity. destruct Haction as [->| ->]; cbn; by eexists. }
  destruct (update_cart_quantity_run s u action i new_qty Hok Hnew)
    as (_ & _ & -> & Hframe).
  split; [|split; [|done]].
  - case_bool_decide as Hpos.
    + right. exists new_qty. rewrite lookup_insert_eq. split; [done|lia].
    + left. apply lookup_delete_eq.
  - intros j Hne. case_bool_decide.
    + by rewrite lookup_insert_ne.
    + by rewrite lookup_delete_ne.
Qed.

(** X19: For an item with no negative stored quantity: "increase" stores the
    quantity plus one (1 for an absent item, whatever the capacity) and
    answers with it; "decrease" stores the quantity minus one when that is
    at least 1 and otherwise removes the entry and answers "removed", also
    when the item was not in the cart. *)
Theorem update_cart_quantity_steps s u i :
  store_ok s →
  0 ≤ default 0 (user_items s u !! i) →
  (result (update_cart_quantity u "increase" i) s =
     Value (Some (QuantityUpdated (default 0 (user_items s u !! i) + 1))) ∧
   user_items (after (update_cart_quantity u "increase" i) s) u !! i =
     Some (default 0 (user_items s u !! i) + 1)) ∧
  (2 ≤ default 0 (user_items s u !! i) →
     result (update_cart_quantity u "decrease" i) s =
       Value (Some (QuantityUpdated (default 0 (user_items s u !! i) - 1))) ∧
     user_items (after (update_cart_quantity u "decrease" i) s) u !! i =
       Some (default 0 (user_items s u !! i) - 1)) ∧
  (default 0 (user_items s u !! i) ≤ 1 →
     result (update_cart_quantity u "decrease" i) s = Value (Some ItemRemoved) ∧
     user_items (after (update_cart_quantity u "decrease" i) s) u !! i = None).
Proof.
  intros Hok Hcur. set (cur := default 0 (user_items s u !! i)) in *.
  split; [|split].
  - destruct (update_cart_quantity_run s u "increase" i (cur + 1) Hok)
      as (-> & _ & -> & _); [done|].
    rewrite bool_decide_eq_false_2, bool_decide_eq_true_2 by lia.
    by rewrite lookup_insert_eq.
  - intros Htwo.
    destruct (update_cart_quantity_run s u "decrease" i (cur - 1) Hok)
      as (-> & _ & -> & _).
    { unfold new_quantity. cbn. f_equal. fold cur. lia. }
    rewrite bool_decide_eq_false_2, bool_decide_eq_true_2 by lia.
    by rewrite lookup_insert_eq.
  - intros Hone.
    destruct (update_cart_quantity_run s u "decrease" i 0 Hok)
      as (-> & _ & -> & _).
    { unfold new_quantity. cbn. f_equal. fold cur. lia. }
    rewrite bool_decide_eq_true_2, bool_decide_eq_false_2 by lia.
    split; [done|]. apply lookup_delete_eq.
Qed.

(** X20: "increase" followed by "decrease" gives back the quantity that
    [get_item_quantity] returned before, for an item with no negative
    stored quantity. *)
Theorem increase_then_decrease s u i :
  store_ok s →
  0 ≤ default 0 (user_items s u !! i) →
  result (get_item_quantity u i)
    (after (update_cart_quantity u "decrease" i)
       (after (update_cart_quantity u "increase" i) s)) =
  result (get_item_quantity u i) s.
Proof.
  intros Hok Hcur. set (cur := default 0 (user_items s u !! i)) in *.
  destruct (update_cart_quantity_run s u "increase" i (cur + 1) Hok)
    as (_ & Hok1 & Hitems1 & _); [done|].
  rewrite bool_decide_eq_true_2 in Hitems1 by lia.
  set (s1 := after (update_cart_quantity u "increase" i) s) in *.
  assert (default 0 (user_items s1 u !! i) = cur + 1) as Hcur1
    by (by rewrite Hitems1, lookup_insert_eq).
  destruct (update_cart_quantity_run s1 u "decrease" i cur Hok1)
    as (_ & Hok2 & Hitems2 & _).
  { unfold new_quantity. cbn. rewrite Hcur1. f_equal. lia. }
  unfold result. rewrite !get_item_quantity_run by done. cbn [fst].
  f_equal. rewrite Hitems2, Hitems1. fold cur.
  case_bool_decide as Hpos.
  - by rewrite lookup_insert_eq.
  - rewrite lookup_delete_eq. cbn. lia.
Qed.

(** X21: For any other action the handler answers nothing and the store reads as
    before. *)
Theorem update_cart_quantity_unknown_action s u action i :
  store_ok s →
  action ≠ "increase" →
  action ≠ "decrease" →
  result (update_cart_quantity u action i) s = Value None ∧
  view (after (update_cart_quantity u action i) s) = view s.
Proof.
  intros Hok Hinc Hdec.
  unfold result, after, update_cart_quantity.
  rewrite (bind_run _ _ _ _ _ (get_item_quantity_run s u i Hok)).
  unfold new_quantity. rewrite !bool_decide_eq_false_2 by done.
  cbn. split; [done|]. apply (got_view s Hok).
Qed.

End CartManager.

(** ** The methods on sample stores *)

Lemma add_item_rejected_after_write_witness :
  store_ok sample_cart_ab ∧
  is_Some (view sample_cart_ab !! 7) ∧
  Z.of_nat (size (user_items sample_cart_ab 7)) = 2 ∧
  user_items sample_cart_ab 7 !! "c" = None ∧
  result (add_item 2 sample_clock 7 "c" 1) sample_cart_ab = Value false ∧
  user_items (after (add_item 2 sample_clock 7 "c" 1) sample_cart_ab) 7 =
    <["c" := 1]> (user_items sample_cart_ab 7) ∧
  user_items (after (add_item 2 sample_clock 7 "c" 1) sample_cart_ab) 7 ≠
    user_items sample_cart_ab 7.
Proof.
  assert (store_ok sample_cart_ab) as H1 by decide_it.
  assert (is_Some (view sample_cart_ab !! 7)) as H2 by decide_it.
  assert (Z.of_nat (size (user_items sample_cart_ab 7)) = 2) as H3
    by (vm_compute; reflexivity).
  assert (user_items sample_cart_ab 7 !! "c" = None) as H4
    by (vm_compute; reflexivity).
  repeat (split; [assumption|]).
  exact (add_item_rejected_after_write 2 sample_clock sample_cart_ab 7 "c" 1 H1 H2 H3 H4).
Defined.

(** C2: [get_cart_total] returns the int 0 for every store, user and menu:
    the price of an item is never read.  For the cart [{a: 2, b: 1}] and a
    catalog with a at $3.00 and b at $5.00, in each of three menu shapes, it
    returns 0 and not 11.00, and 0 and not 6.00 when b is left out. *)
Theorem get_cart_total_returns_zero :
  (∀ wall_clock s u menu_items,
     result (get_cart_total wall_clock u menu_items) s = Value 0) ∧
  user_items sample_cart_ab 7 = {["a" := 2; "b" := 1]} ∧
  result (get_cart_total sample_clock 7 (menu_lists catalog_ab)) sample_cart_ab = Value 0 ∧
  result (get_cart_total sample_clock 7 (menu_lists catalog_a)) sample_cart_ab = Value 0 ∧
  result (get_cart_total sample_clock 7 (menu_categories catalog_ab)) sample_cart_ab = Value 0 ∧
  result (get_cart_total sample_clock 7 (menu_categories catalog_a)) sample_cart_ab = Value 0 ∧
  result (get_cart_total sample_clock 7 (menu_flat [("a", "$3.00"); ("b", "$5.00")]))
    sample_cart_ab = Value 0 ∧
  result (get_cart_total sample_clock 7 (menu_flat [("a", "$3.00")]))
    sample_cart_ab = Value 0.
Proof.
  split.
  - intros wall_clock s u menu_items. unfold result. by rewrite get_cart_total_run.
  - repeat split; vm_compute; reflexivity.
Qed.

(** C3, counterexample: on the empty store with a capacity of 50,
    [add_item] with quantity 0 returns [True] and leaves the entry [a: 0]
    in the user's cart. *)
Lemma add_item_zero_quantity_accepted :
  result (add_item 50 sample_clock 7 "a" 0) init = Value true ∧
  user_items (after (add_item 50 sample_clock 7 "a" 0) init) 7 !! "a" = Some 0 ∧
  user_items (after (add_item 50 sample_clock 7 "a" 0) init) 7 ≠ user_items init 7.
Proof.
  split; [vm_compute; reflexivity|]. split; [vm_compute; reflexivity|].
  intros H. apply (f_equal (λ m, m !! "a")) in H. vm_compute in H. discriminate H.
Qed.

Lemma add_item_nonpositive_quantity_witness :
  store_ok sample_cart_ab ∧
  -1 ≤ 0 ∧
  Z.of_nat (size (add_to (user_items sample_cart_ab 7) "a" (-1))) ≤ 50 ∧
  result (add_item 50 sample_clock 7 "a" (-1)) sample_cart_ab = Value true ∧
  user_items (after (add_item 50 sample_clock 7 "a" (-1)) sample_cart_ab) 7 !! "a" =
    Some (default 0 (user_items sample_cart_ab 7 !! "a") + -1) ∧
  ∀ j, j ≠ "a" →
    user_items (after (add_item 50 sample_clock 7 "a" (-1)) sample_cart_ab) 7 !! j =
    user_items sample_cart_ab 7 !! j.
Proof.
  assert (store_ok sample_cart_ab) as H1 by decide_it.
  assert (-1 ≤ 0) as H2 by lia.
  assert (Z.of_nat (size (add_to (user_items sample_cart_ab 7) "a" (-1))) ≤ 50) as H3
    by decide_it.
  repeat (split; [assumption|]).
  exact (add_item_nonpositive_quantity 50 sample_clock sample_cart_ab 7 "a" (-1) H1 H2 H3).
Defined.

(** C4, counterexample: every stored quantity of the empty store is
    positive, and [add_item] with quantity -1 leads to a store that holds
    the quantity -1. *)
Lemma add_item_stores_negative_quantity :
  store_ok init ∧
  quantities_positive init ∧
  user_items (after (add_item 50 sample_clock 7 "a" (-1)) init) 7 !! "a" = Some (-1) ∧
  ¬ quantities_positive (after (add_item 50 sample_clock 7 "a" (-1)) init).
Proof.
  split; [decide_it|]. split; [decide_it|]. split; [vm_compute; reflexivity|].
  decide_it.
Qed.

Lemma quantities_positive_preserved_witness :
  store_ok sample_cart_ab ∧
  quantities_positive sample_cart_ab ∧
  (∀ u i q, 0 < q →
     quantities_positive (after (add_item 50 sample_clock u i q) sample_cart_ab)) ∧
  (∀ u i q, quantities_positive (after (update_quantity sample_clock u i q) sample_cart_ab)) ∧
  (∀ u i, quantities_positive (after (remove_item sample_clock u i) sample_cart_ab)) ∧
  (∀ u, quantities_positive (after (clear_cart u) sample_cart_ab)).
Proof.
  assert (store_ok sample_cart_ab) as H1 by decide_it.
  assert (quantities_positive sample_cart_ab) as H2 by decide_it.
  repeat (split; [assumption|]).
  exact (quantities_positive_preserved 50 sample_clock sample_cart_ab H1 H2).
Defined.

(** C5, counterexample: with a capacity of 2, the cart [{a: 2, b: 1}] is
    within the capacity, and [update_quantity] for the absent item id [z]
    with quantity 5 leaves a cart of three distinct item ids. *)
Lemma update_quantity_adds_a_key :
  store_ok sample_cart_ab ∧
  within_capacity 2 sample_cart_ab ∧
  size (user_items sample_cart_ab 7) = 2%nat ∧
  result (update_quantity sample_clock 7 "z" 5) sample_cart_ab = Value true ∧
  size (user_items (after (update_quantity sample_clock 7 "z" 5) sample_cart_ab) 7) = 3%nat ∧
  ¬ within_capacity 2 (after (update_quantity sample_clock 7 "z" 5) sample_cart_ab).
Proof.
  split; [decide_it|]. split; [decide_it|].
  repeat (split; [vm_compute; reflexivity|]). decide_it.
Qed.

Lemma within_capacity_preserved_witness :
  store_ok sample_cart_ab ∧
  within_capacity 2 sample_cart_ab ∧
  (∀ u i, within_capacity 2 (after (remove_item sample_clock u i) sample_cart_ab)) ∧
  (∀ u, within_capacity 2 (after (clear_cart u) sample_cart_ab)) ∧
  (∀ u i q, q ≤ 0 ∨ is_Some (user_items sample_cart_ab u !! i) →
     within_capacity 2 (after (update_quantity sample_clock u i q) sample_cart_ab)) ∧
  (∀ u i q, result (add_item 2 sample_clock u i q) sample_cart_ab = Value true →
     within_capacity 2 (after (add_item 2 sample_clock u i q) sample_cart_ab)).
Proof.
  assert (store_ok sample_cart_ab) as H1 by decide_it.
  assert (within_capacity 2 sample_cart_ab) as H2 by decide_it.
  repeat (split; [assumption|]).
  exact (within_capacity_preserved 2 sample_clock sample_cart_ab H1 H2).
Defined.

Lemma add_item_twice_accumulates_witness :
  store_ok init ∧
  1 ≤ 50 ∧
  user_items init 7 !! "a" = None ∧
  user_items (after (add_item 50 sample_clock 7 "a" 1)
                (after (add_item 50 sample_clock 7 "a" 1) init)) 7 !! "a" = Some 2 ∧
  result (get_item_quantity sample_clock 7 "a")
    (after (add_item 50 sample_clock 7 "a" 1)
       (after (add_item 50 sample_clock 7 "a" 1) init)) = Value 2.
Proof.
  assert (store_ok init) as H1 by decide_it.
  assert (1 ≤ 50) as H2 by lia.
  assert (user_items init 7 !! "a" = None) as H3 by (vm_compute; reflexivity).
  repeat (split; [assumption|]).
  exact (add_item_twice_accumulates 50 sample_clock init 7 "a" H1 H2 H3).
Defined.

Lemma update_quantity_sets_or_removes_witness :
  store_ok sample_cart_ab ∧
  0 ≤ 0 ∧
  0 < 5 ∧
  (update_quantity sample_clock 7 "a" 0 sample_cart_ab =
     remove_item sample_clock 7 "a" sample_cart_ab ∧
   user_items (after (update_quantity sample_clock 7 "a" 0) sample_cart_ab) 7 !! "a" = None ∧
   result (get_item_quantity sample_clock 7 "a")
     (after (update_quantity sample_clock 7 "a" 0) sample_cart_ab) = Value 0) ∧
  (user_items (after (update_quantity sample_clock 7 "a" 5) sample_cart_ab) 7 !! "a" = Some 5 ∧
   result (get_item_quantity sample_clock 7 "a")
     (after (update_quantity sample_clock 7 "a" 5) sample_cart_ab) = Value 5).
Proof.
  assert (store_ok sample_cart_ab) as H1 by decide_it.
  assert (0 ≤ 0) as H2 by lia.
  assert (0 < 5) as H3 by lia.
  repeat (split; [assumption|]).
  split.
  - exact (proj1 (update_quantity_sets_or_removes sample_clock sample_cart_ab 7 "a" 0 H1) H2).
  - exact (proj2 (update_quantity_sets_or_removes sample_clock sample_cart_ab 7 "a" 5 H1) H3).
Defined.

Lemma no_cart_reads_as_empty_cart_witness :
  store_ok init ∧
  store_ok sample_cart_empty ∧
  carts init !! 7 = None ∧
  view sample_cart_empty !! 7 = Some ∅ ∧
  (∃ c1 c2, result (read_cart sample_clock 7) init = Value c1 ∧
            result (read_cart sample_clock 7) sample_cart_empty = Value c2 ∧
            items c1 = items c2) ∧
  result (get_item_quantity sample_clock 7 "a") init =
    result (get_item_quantity sample_clock 7 "a") sample_cart_empty ∧
  result (get_cart_total sample_clock 7 (menu_lists catalog_ab)) init =
    result (get_cart_total sample_clock 7 (menu_lists catalog_ab)) sample_cart_empty ∧
  result (get_cart_item_count sample_clock 7) init =
    result (get_cart_item_count sample_clock 7) sample_cart_empty ∧
  result (is_cart_empty sample_clock 7) init =
    result (is_cart_empty sample_clock 7) sample_cart_empty.
Proof.
  assert (store_ok init) as H1 by decide_it.
  assert (store_ok sample_cart_empty) as H2 by decide_it.
  assert (carts init !! 7 = None) as H3 by (vm_compute; reflexivity).
  assert (view sample_cart_empty !! 7 = Some ∅) as H4 by (vm_compute; reflexivity).
  repeat (split; [assumption|]).
  exact (no_cart_reads_as_empty_cart sample_clock init sample_cart_empty 7 "a"
           (menu_lists catalog_ab) H1 H2 H3 H4).
Defined.

Lemma drained_cart_stays_in_store_witness :
  store_ok sample_cart_a ∧
  view sample_cart_a !! 7 = Some {["a" := 1]} ∧
  result (remove_item sample_clock 7 "a") sample_cart_a = Value true ∧
  view (after (remove_item sample_clock 7 "a") sample_cart_a) !! 7 = Some ∅ ∧
  result (clear_cart 7) (after (remove_item sample_clock 7 "a") sample_cart_a) = Value true ∧
  ∀ s0, carts s0 !! 7 = None → result (clear_cart 7) s0 = Value false.
Proof.
  assert (store_ok sample_cart_a) as H1 by decide_it.
  assert (view sample_cart_a !! 7 = Some {["a" := 1]}) as H2 by (vm_compute; reflexivity).
  repeat (split; [assumption|]).
  exact (drained_cart_stays_in_store sample_clock sample_cart_a 7 "a" 1 H1 H2).
Defined.

(** ** The menu lookups of [utils.py] *)

Lemma equals_str_true v item_id :
  Utils.equals_str v item_id = true ↔ v = JString item_id.
Proof.
  destruct v; cbn; try (split; [discriminate|by intros ?]).
  rewrite bool_decide_eq_true. split; [by intros ->|by intros [= ->]].
Qed.

Lemma find_item_found item_id elems item :
  Utils.find_item item_id elems = Some (Some item) →
  item ∈ elems ∧ Utils.py_get item "id" JNull = Some (JString item_id).
Proof.
  induction elems as [|x elems IH]; cbn; [done|].
  destruct (Utils.py_get x "id" JNull) as [id|] eqn:Hid; cbn; [|done].
  destruct (Utils.equals_str id item_id) eqn:Heq.
  - intros [= <-]. apply equals_str_true in Heq as ->.
    split; [apply list_elem_of_here|done].
  - intros [Hin Hget]%IH. split; [by apply list_elem_of_further|done].
Qed.

Lemma find_item_missing item_id elems item :
  Utils.find_item item_id elems = Some None →
  item ∈ elems → Utils.py_get item "id" JNull ≠ Some (JString item_id).
Proof.
  induction elems as [|x elems IH]; cbn; [by intros _ ?%not_elem_of_nil|].
  destruct (Utils.py_get x "id" JNull) as [id|] eqn:Hid; cbn; [|done].
  destruct (Utils.equals_str id item_id) eqn:Heq; [done|].
  intros Hrest [->|Hin]%elem_of_cons; [|by apply IH].
  rewrite Hid. intros [= ->]. by rewrite (proj2 (equals_str_true _ _)) in Heq.
Qed.

Lemma find_in_category_found item_id category_data item :
  Utils.find_in_category item_id category_data = Some (Some item) →
  Utils.in_category item category_data ∧
  Utils.py_get item "id" JNull = Some (JString item_id).
Proof.
  unfold Utils.find_in_category, Utils.in_category.
  destruct (Utils.py_get category_data "items" (JArray [])) as [its|]; cbn; [|done].
  destruct (Utils.py_iter its) as [elems|] eqn:Hiter; cbn; [|done].
  intros [Hin Hid]%find_item_found. split; [|done]. by exists its, elems.
Qed.

Lemma find_in_category_missing item_id category_data item :
  Utils.find_in_category item_id category_data = Some None →
  Utils.in_category item category_data →
  Utils.py_get item "id" JNull ≠ Some (JString item_id).
Proof.
  unfold Utils.find_in_category, Utils.in_category.
  intros Hfind (its & elems & Hits & Hiter & Hin).
  rewrite Hits in Hfind. cbn in Hfind. rewrite Hiter in Hfind. cbn in Hfind.
  by apply (find_item_missing item_id elems).
Qed.

(** The two outer loops run in step. *)
Lemma find_lockstep item_id fields :
  (Utils.find_in_values item_id fields.*2 = None ∧
   Utils.find_category item_id fields = None) ∨
  (Utils.find_in_values item_id fields.*2 = Some None ∧
   Utils.find_category item_id fields = Some None ∧
   ∀ k category_data, (k, category_data) ∈ fields →
     Utils.find_in_category item_id category_data = Some None) ∨
  (∃ k category_data item,
     Utils.find_in_values item_id fields.*2 = Some (Some item) ∧
     Utils.find_category item_id fields = Some (Some k) ∧
     (k, category_data) ∈ fields ∧
     Utils.find_in_category item_id category_data = Some (Some item)).
Proof.
  induction fields as [|[k category_data] fields IH]; cbn.
  - right. left. repeat split. by intros ?? ?%not_elem_of_nil.
  - destruct (Utils.find_in_category item_id category_data) as [[item|]|] eqn:Hcat; cbn.
    + right. right. exists k, category_data, item.
      repeat split; [apply list_elem_of_here|done].
    + destruct IH as [[-> ->]|[(-> & -> & Hall)|(k' & c' & item & -> & -> & Hin & Hc')]].
      * by left.
      * right. left. repeat split.
        intros k' c' [[= -> ->]|Hin]%elem_of_cons; [done|by apply (Hall k')].
      * right. right. exists k', c', item.
        repeat split; [by apply list_elem_of_further|done].
    + by left.
Qed.

(** X22: [get_item_by_id] and [get_category_by_item_id] agree.  Both raise, or
    both find nothing and return [{}] and [""], or they return an item
    whose ["id"] is the one asked for and the key of a category that holds
    that item. *)
Theorem menu_lookups_agree menu_data item_id :
  (Utils.get_item_by_id menu_data item_id = None ∧
   Utils.get_category_by_item_id menu_data item_id = None) ∨
  (Utils.get_item_by_id menu_data item_id = Some (JObject []) ∧
   Utils.get_category_by_item_id menu_data item_id = Some "") ∨
  (∃ fields k category_data item,
     Utils.py_get menu_data "categories" (JObject []) = Some (JObject fields) ∧
     (k, category_data) ∈ fields ∧
     Utils.in_category item category_data ∧
     Utils.py_get item "id" JNull = Some (JString item_id) ∧
     Utils.get_item_by_id menu_data item_id = Some item ∧
     Utils.get_category_by_item_id menu_data item_id = Some k).
Proof.
  unfold Utils.get_item_by_id, Utils.get_category_by_item_id.
  destruct (Utils.py_get menu_data "categories" (JObject [])) as [categories|];
    cbn; [|by left].
  destruct categories as [| | | | |fields]; cbn; try by left.
  destruct (find_lockstep item_id fields)
    as [[-> ->]|[(-> & -> & _)|(k & c & item & -> & -> & Hin & Hc)]]; cbn.
  - by left.
  - right. by left.
  - right. right. apply find_in_category_found in Hc as [Hcat Hid].
    by exists fields, k, c, item.
Qed.

(** X23: When [get_item_by_id] returns [{}], no category of the menu holds an
    item with the id asked for. *)
Theorem get_item_by_id_empty_means_absent menu_data item_id fields k category_data item :
  Utils.get_item_by_id menu_data item_id = Some (JObject []) →
  Utils.py_get menu_data "categories" (JObject []) = Some (JObject fields) →
  (k, category_data) ∈ fields →
  Utils.in_category item category_data →
  Utils.py_get item "id" JNull ≠ Some (JString item_id).
Proof.
  unfold Utils.get_item_by_id. intros Hget Hcats Hin Hitem.
  rewrite Hcats in Hget. cbn in Hget.
  destruct (find_lockstep item_id fields)
    as [[Hv _]|[(Hv & _ & Hall)|(k' & c' & item' & Hv & _ & _ & Hc')]];
    rewrite Hv in Hget; cbn in Hget.
  - done.
  - by apply (find_in_category_missing item_id category_data item (Hall k _ Hin)).
  - injection Hget as ->. apply find_in_category_found in Hc' as [_ Hid].
    discriminate Hid.
Qed.

Lemma find_item_total item_id elems :
  Forall Utils.is_dict elems → is_Some (Utils.find_item item_id elems).
Proof.
  induction 1 as [|x elems [fields ->] _ IH]; cbn; [by eexists|].
  destruct (Utils.equals_str _ _); [by eexists|done].
Qed.

Lemma find_in_category_total item_id category_data :
  Utils.well_formed_category category_data →
  is_Some (Utils.find_in_category item_id category_data).
Proof.
  intros [[fields ->] Hitems]. unfold Utils.find_in_category.
  destruct (Hitems _ eq_refl) as (elems & Hits & Hdicts).
  cbn in *. rewrite Hits. cbn. by apply find_item_total.
Qed.

(** X24: On a menu of the expected shape neither lookup raises. *)
Theorem menu_lookups_total menu_data item_id :
  Utils.well_formed_menu menu_data →
  is_Some (Utils.get_item_by_id menu_data item_id) ∧
  is_Some (Utils.get_category_by_item_id menu_data item_id).
Proof.
  intros [[top ->] Hcats].
  destruct (Hcats _ eq_refl) as (fields & Hfields & Hwf).
  unfold Utils.get_item_by_id, Utils.get_category_by_item_id.
  cbn in *. rewrite Hfields. cbn.
  assert (is_Some (Utils.find_in_values item_id fields.*2) ∧
          is_Some (Utils.find_category item_id fields)) as [[v ->] [c ->]];
    [|split; by eexists].
  clear Hfields Hcats. induction Hwf as [|[k c] fields Hc _ IH]; cbn.
  - split; by eexists.
  - destruct (find_in_category_total item_id c Hc) as [[item|] ->]; cbn.
    + split; by eexists.
    + done.
Qed.

(** ** The further properties on sample stores *)

Lemma reachable_states_well_formed_witness :
  carts (perform_all 50 sample_clock
           [CallAddItem 7 "a" 1; CallAddItem 8 "b" 2; CallRemoveItem 7 "a"] init)
    !! 7 = Some 1%positive ∧
  (∃ c its,
     heap (perform_all 50 sample_clock
             [CallAddItem 7 "a" 1; CallAddItem 8 "b" 2; CallRemoveItem 7 "a"] init)
       !! 1%positive = Some c ∧ items c = Some its) ∧
  (∀ u2,
     carts (perform_all 50 sample_clock
              [CallAddItem 7 "a" 1; CallAddItem 8 "b" 2; CallRemoveItem 7 "a"] init)
       !! u2 = Some 1%positive → 7 = u2).
Proof.
  assert (carts (perform_all 50 sample_clock
                   [CallAddItem 7 "a" 1; CallAddItem 8 "b" 2; CallRemoveItem 7 "a"] init)
            !! 7 = Some 1%positive) as H1 by (vm_compute; reflexivity).
  split; [assumption|].
  exact (reachable_states_well_formed 50 sample_clock _ 7 1%positive H1).
Defined.

Lemma mutators_leave_other_users_witness :
  store_ok sample_cart_ab ∧
  7 ≠ 8 ∧
  view (after (add_item 50 sample_clock 8 "a" 1) sample_cart_ab) !! 7 =
    view sample_cart_ab !! 7 ∧
  view (after (remove_item sample_clock 8 "a") sample_cart_ab) !! 7 =
    view sample_cart_ab !! 7 ∧
  view (after (update_quantity sample_clock 8 "a" 1) sample_cart_ab) !! 7 =
    view sample_cart_ab !! 7 ∧
  view (after (clear_cart 8) sample_cart_ab) !! 7 = view sample_cart_ab !! 7.
Proof.
  assert (store_ok sample_cart_ab) as H1 by decide_it.
  assert (7 ≠ 8) as H2 by lia.
  repeat (split; [assumption|]).
  exact (mutators_leave_other_users 50 sample_clock sample_cart_ab 8 7 "a" 1 H1 H2).
Defined.

Lemma reads_leave_store_witness :
  store_ok sample_cart_ab ∧
  view (after (get_cart sample_clock 8) sample_cart_ab) = view sample_cart_ab ∧
  view (after (get_item_quantity sample_clock 8 "a") sample_cart_ab) =
    view sample_cart_ab ∧
  view (after (get_cart_total sample_clock 8 (menu_lists catalog_ab)) sample_cart_ab) =
    view sample_cart_ab ∧
  view (after (get_cart_item_count sample_clock 8) sample_cart_ab) =
    view sample_cart_ab ∧
  view (after (is_cart_empty sample_clock 8) sample_cart_ab) = view sample_cart_ab.
Proof.
  assert (store_ok sample_cart_ab) as H1 by decide_it.
  split; [assumption|].
  exact (reads_leave_store sample_clock sample_cart_ab 8 "a" (menu_lists catalog_ab) H1).
Defined.

Lemma remove_item_reports_deletion_witness :
  store_ok sample_cart_ab ∧
  is_Some (user_items sample_cart_ab 7 !! "a") ∧
  user_items sample_cart_ab 7 !! "z" = None ∧
  (result (remove_item sample_clock 7 "a") sample_cart_ab = Value true ∧
   user_items (after (remove_item sample_clock 7 "a") sample_cart_ab) 7 =
     delete "a" (user_items sample_cart_ab 7)) ∧
  (result (remove_item sample_clock 7 "z") sample_cart_ab = Value false ∧
   view (after (remove_item sample_clock 7 "z") sample_cart_ab) = view sample_cart_ab).
Proof.
  assert (store_ok sample_cart_ab) as H1 by decide_it.
  assert (is_Some (user_items sample_cart_ab 7 !! "a")) as H2 by decide_it.
  assert (user_items sample_cart_ab 7 !! "z" = None) as H3 by (vm_compute; reflexivity).
  repeat (split; [assumption|]).
  split.
  - exact (proj1 (remove_item_reports_deletion sample_clock sample_cart_ab 7 "a" H1) H2).
  - exact (proj2 (remove_item_reports_deletion sample_clock sample_cart_ab 7 "z" H1) H3).
Defined.

Lemma clear_cart_empties_witness :
  store_ok sample_cart_ab ∧
  result (clear_cart 7) sample_cart_ab =
    Value (bool_decide (is_Some (carts sample_cart_ab !! 7))) ∧
  carts (after (clear_cart 7) sample_cart_ab) !! 7 = None ∧
  user_items (after (clear_cart 7) sample_cart_ab) 7 = ∅ ∧
  result (is_cart_empty sample_clock 7) (after (clear_cart 7) sample_cart_ab) = Value true ∧
  result (get_item_quantity sample_clock 7 "a") (after (clear_cart 7) sample_cart_ab) =
    Value 0 ∧
  result (clear_cart 7) (after (clear_cart 7) sample_cart_ab) = Value false.
Proof.
  assert (store_ok sample_cart_ab) as H1 by decide_it.
  split; [assumption|].
  exact (clear_cart_empties sample_clock sample_cart_ab 7 "a" H1).
Defined.

Lemma add_item_raises_count_witness :
  store_ok sample_cart_ab ∧
  (is_Some (view sample_cart_ab !! 7) ∨
   result (add_item 50 sample_clock 7 "a" 4) sample_cart_ab = Value true) ∧
  result (get_cart_item_count sample_clock 7) sample_cart_ab =
    Value (sum_quantities (user_items sample_cart_ab 7)) ∧
  result (get_cart_item_count sample_clock 7)
    (after (add_item 50 sample_clock 7 "a" 4) sample_cart_ab) =
    Value (sum_quantities (user_items sample_cart_ab 7) + 4).
Proof.
  assert (store_ok sample_cart_ab) as H1 by decide_it.
  assert (is_Some (view sample_cart_ab !! 7) ∨
          result (add_item 50 sample_clock 7 "a" 4) sample_cart_ab = Value true) as H2
    by (left; decide_it).
  repeat (split; [assumption|]).
  exact (add_item_raises_count 50 sample_clock sample_cart_ab 7 "a" 4 H1 H2).
Defined.

Lemma add_then_remove_restores_witness :
  store_ok sample_cart_ab ∧
  user_items sample_cart_ab 7 !! "c" = None ∧
  (is_Some (view sample_cart_ab !! 7) ∨
   result (add_item 50 sample_clock 7 "c" 3) sample_cart_ab = Value true) ∧
  result (remove_item sample_clock 7 "c")
    (after (add_item 50 sample_clock 7 "c" 3) sample_cart_ab) = Value true ∧
  user_items (after (remove_item sample_clock 7 "c")
                (after (add_item 50 sample_clock 7 "c" 3) sample_cart_ab)) 7 =
    user_items sample_cart_ab 7.
Proof.
  assert (store_ok sample_cart_ab) as H1 by decide_it.
  assert (user_items sample_cart_ab 7 !! "c" = None) as H2 by (vm_compute; reflexivity).
  assert (is_Some (view sample_cart_ab !! 7) ∨
          result (add_item 50 sample_clock 7 "c" 3) sample_cart_ab = Value true) as H3
    by (left; decide_it).
  repeat (split; [assumption|]).
  exact (add_then_remove_restores 50 sample_clock sample_cart_ab 7 "c" 3 H1 H2 H3).
Defined.

Lemma update_quantity_last_wins_witness :
  store_ok sample_cart_ab ∧
  0 < 4 ∧
  0 < 9 ∧
  view (after (update_quantity sample_clock 7 "a" 9)
          (after (update_quantity sample_clock 7 "a" 4) sample_cart_ab)) =
  view (after (update_quantity sample_clock 7 "a" 9) sample_cart_ab).
Proof.
  assert (store_ok sample_cart_ab) as H1 by decide_it.
  assert (0 < 4) as H2 by lia.
  assert (0 < 9) as H3 by lia.
  repeat (split; [assumption|]).
  exact (update_quantity_last_wins sample_clock sample_cart_ab 7 "a" 4 9 H1 H2 H3).
Defined.

Lemma add_item_accepts_iff_witness :
  store_ok sample_cart_ab ∧
  is_Some (user_items sample_cart_ab 7 !! "a") ∧
  user_items sample_cart_ab 7 !! "c" = None ∧
  (result (add_item 2 sample_clock 7 "a" 5) sample_cart_ab = Value true ↔
   Z.of_nat (size (user_items sample_cart_ab 7)) ≤ 2) ∧
  (result (add_item 2 sample_clock 7 "c" 5) sample_cart_ab = Value true ↔
   Z.of_nat (size (user_items sample_cart_ab 7)) + 1 ≤ 2).
Proof.
  assert (store_ok sample_cart_ab) as H1 by decide_it.
  assert (is_Some (user_items sample_cart_ab 7 !! "a")) as H2 by decide_it.
  assert (user_items sample_cart_ab 7 !! "c" = None) as H3 by (vm_compute; reflexivity).
  repeat (split; [assumption|]).
  split.
  - exact (proj1 (add_item_accepts_iff 2 sample_clock sample_cart_ab 7 "a" 5 H1) H2).
  - exact (proj2 (add_item_accepts_iff 2 sample_clock sample_cart_ab 7 "c" 5 H1) H3).
Defined.

Lemma empty_iff_count_zero_witness :
  store_ok sample_cart_ab ∧
  quantities_positive sample_cart_ab ∧
  (result (is_cart_empty sample_clock 7) sample_cart_ab = Value true ↔
   result (get_cart_item_count sample_clock 7) sample_cart_ab = Value 0) ∧
  ∃ n, result (get_cart_item_count sample_clock 7) sample_cart_ab = Value n ∧
       Z.of_nat (size (user_items sample_cart_ab 7)) ≤ n.
Proof.
  assert (store_ok sample_cart_ab) as H1 by decide_it.
  assert (quantities_positive sample_cart_ab) as H2 by decide_it.
  repeat (split; [assumption|]).
  exact (empty_iff_count_zero sample_clock sample_cart_ab 7 H1 H2).
Defined.

Lemma add_item_new_cart_witness :
  carts sample_cart_ab !! 8 = None ∧
  1 ≤ 50 ∧
  result (add_item 50 sample_clock 8 "a" 1) sample_cart_ab = Value true ∧
  stored_cart (after (add_item 50 sample_clock 8 "a" 1) sample_cart_ab) 8 =
    Some (mkCart (Some {["a" := 1]})
            (Some (sample_clock (ticks sample_cart_ab)))
            (Some (sample_clock (2 + ticks sample_cart_ab)))).
Proof.
  assert (carts sample_cart_ab !! 8 = None) as H1 by (vm_compute; reflexivity).
  assert (1 ≤ 50) as H2 by lia.
  repeat (split; [assumption|]).
  exact (add_item_new_cart 50 sample_clock sample_cart_ab 8 "a" 1 H1 H2).
Defined.

Lemma created_at_never_changes_witness :
  store_ok sample_cart_ab ∧
  stored_cart sample_cart_ab 7 =
    Some (mkCart (Some {["a" := 2; "b" := 1]})
            (Some "2024-05-01T11:00:00") (Some "2024-05-01T11:30:00")) ∧
  (∃ c', stored_cart (after (add_item 50 sample_clock 7 "c" 1) sample_cart_ab) 7 = Some c' ∧
         created_at c' = Some "2024-05-01T11:00:00") ∧
  (∃ c', stored_cart (after (remove_item sample_clock 7 "c") sample_cart_ab) 7 = Some c' ∧
         created_at c' = Some "2024-05-01T11:00:00") ∧
  (∃ c', stored_cart (after (update_quantity sample_clock 7 "c" 1) sample_cart_ab) 7 = Some c' ∧
         created_at c' = Some "2024-05-01T11:00:00").
Proof.
  assert (store_ok sample_cart_ab) as H1 by decide_it.
  assert (stored_cart sample_cart_ab 7 =
            Some (mkCart (Some {["a" := 2; "b" := 1]})
                    (Some "2024-05-01T11:00:00") (Some "2024-05-01T11:30:00"))) as H2
    by (vm_compute; reflexivity).
  repeat (split; [assumption|]).
  exact (created_at_never_changes 50 sample_clock sample_cart_ab 7 "c" 1 _
           "2024-05-01T11:00:00" H1 H2 eq_refl).
Defined.

Lemma updated_at_tracks_effect_witness :
  store_ok sample_cart_ab ∧
  stored_cart sample_cart_ab 7 =
    Some (mkCart (Some {["a" := 2; "b" := 1]})
            (Some "2024-05-01T11:00:00") (Some "2024-05-01T11:30:00")) ∧
  (∃ c', stored_cart (after (add_item 2 sample_clock 7 "c" 1) sample_cart_ab) 7 = Some c' ∧
         items c' = Some (add_to (user_items sample_cart_ab 7) "c" 1) ∧
         (result (add_item 2 sample_clock 7 "c" 1) sample_cart_ab = Value true →
            updated_at c' = Some (sample_clock (2 + ticks sample_cart_ab))) ∧
         (result (add_item 2 sample_clock 7 "c" 1) sample_cart_ab = Value false →
            updated_at c' = Some "2024-05-01T11:30:00")) ∧
  (is_Some (user_items sample_cart_ab 7 !! "c") →
     ∃ c', stored_cart (after (remove_item sample_clock 7 "c") sample_cart_ab) 7 = Some c' ∧
           updated_at c' = Some (sample_clock (2 + ticks sample_cart_ab))) ∧
  (user_items sample_cart_ab 7 !! "c" = None →
     stored_cart (after (remove_item sample_clock 7 "c") sample_cart_ab) 7 =
       Some (mkCart (Some {["a" := 2; "b" := 1]})
               (Some "2024-05-01T11:00:00") (Some "2024-05-01T11:30:00"))) ∧
  (0 < 1 →
     ∃ c', stored_cart (after (update_quantity sample_clock 7 "c" 1) sample_cart_ab) 7 =
             Some c' ∧
           updated_at c' = Some (sample_clock (2 + ticks sample_cart_ab))).
Proof.
  assert (store_ok sample_cart_ab) as H1 by decide_it.
  assert (stored_cart sample_cart_ab 7 =
            Some (mkCart (Some {["a" := 2; "b" := 1]})
                    (Some "2024-05-01T11:00:00") (Some "2024-05-01T11:30:00"))) as H2
    by (vm_compute; reflexivity).
  repeat (split; [assumption|]).
  exact (updated_at_tracks_effect 2 sample_clock sample_cart_ab 7 "c" 1 _ H1 H2).
Defined.

Lemma basic_add_item_always_adds_witness :
  store_ok sample_cart_ab ∧
  result (AddCartSystem.add_item 7 "c" 1) sample_cart_ab = Value true ∧
  user_items (after (AddCartSystem.add_item 7 "c" 1) sample_cart_ab) 7 !! "c" =
    Some (default 0 (user_items sample_cart_ab 7 !! "c") + 1) ∧
  (∀ j, j ≠ "c" →
     user_items (after (AddCartSystem.add_item 7 "c" 1) sample_cart_ab) 7 !! j =
     user_items sample_cart_ab 7 !! j) ∧
  (∀ u', u' ≠ 7 →
     view (after (AddCartSystem.add_item 7 "c" 1) sample_cart_ab) !! u' =
     view sample_cart_ab !! u').
Proof.
  assert (store_ok sample_cart_ab) as H1 by decide_it.
  split; [assumption|].
  exact (basic_add_item_always_adds sample_cart_ab 7 "c" 1 H1).
Defined.



Lemma update_cart_quantity_never_leaves_nonpositive_witness :
  store_ok sample_cart_ab ∧
  ("decrease" = "increase" ∨ "decrease" = "decrease") ∧
  (user_items (after (update_cart_quantity sample_clock 7 "decrease" "b") sample_cart_ab) 7
     !! "b" = None ∨
   ∃ q, user_items (after (update_cart_quantity sample_clock 7 "decrease" "b")
                      sample_cart_ab) 7 !! "b" = Some q ∧ 1 ≤ q) ∧
  (∀ j, j ≠ "b" →
     user_items (after (update_cart_quantity sample_clock 7 "decrease" "b") sample_cart_ab) 7
       !! j = user_items sample_cart_ab 7 !! j) ∧
  (∀ u', u' ≠ 7 →
     view (after (update_cart_quantity sample_clock 7 "decrease" "b") sample_cart_ab) !! u' =
     view sample_cart_ab !! u').
Proof.
  assert (store_ok sample_cart_ab) as H1 by decide_it.
  assert ("decrease" = "increase" ∨ "decrease" = "decrease") as H2
    by (right; reflexivity).
  repeat (split; [assumption|]).
  exact (update_cart_quantity_never_leaves_nonpositive sample_clock sample_cart_ab 7
           "decrease" "b" H1 H2).
Defined.

Lemma update_cart_quantity_steps_witness :
  store_ok sample_cart_ab ∧
  0 ≤ default 0 (user_items sample_cart_ab 7 !! "a") ∧
  (result (update_cart_quantity sample_clock 7 "increase" "a") sample_cart_ab =
     Value (Some (QuantityUpdated (default 0 (user_items sample_cart_ab 7 !! "a") + 1))) ∧
   user_items (after (update_cart_quantity sample_clock 7 "increase" "a") sample_cart_ab) 7
     !! "a" = Some (default 0 (user_items sample_cart_ab 7 !! "a") + 1)) ∧
  (2 ≤ default 0 (user_items sample_cart_ab 7 !! "a") →
     result (update_cart_quantity sample_clock 7 "decrease" "a") sample_cart_ab =
       Value (Some (QuantityUpdated (default 0 (user_items sample_cart_ab 7 !! "a") - 1))) ∧
     user_items (after (update_cart_quantity sample_clock 7 "decrease" "a") sample_cart_ab) 7
       !! "a" = Some (default 0 (user_items sample_cart_ab 7 !! "a") - 1)) ∧
  (default 0 (user_items sample_cart_ab 7 !! "a") ≤ 1 →
     result (update_cart_quantity sample_clock 7 "decrease" "a") sample_cart_ab =
       Value (Some ItemRemoved) ∧
     user_items (after (update_cart_quantity sample_clock 7 "decrease" "a") sample_cart_ab) 7
       !! "a" = None).
Proof.
  assert (store_ok sample_cart_ab) as H1 by decide_it.
  assert (0 ≤ default 0 (user_items sample_cart_ab 7 !! "a")) as H2 by decide_it.
  repeat (split; [assumption|]).
  exact (update_cart_quantity_steps sample_clock sample_cart_ab 7 "a" H1 H2).
Defined.

Lemma increase_then_decrease_witness :
  store_ok sample_cart_ab ∧
  0 ≤ default 0 (user_items sample_cart_ab 7 !! "c") ∧
  result (get_item_quantity sample_clock 7 "c")
    (after (update_cart_quantity sample_clock 7 "decrease" "c")
       (after (update_cart_quantity sample_clock 7 "increase" "c") sample_cart_ab)) =
  result (get_item_quantity sample_clock 7 "c") sample_cart_ab.
Proof.
  assert (store_ok sample_cart_ab) as H1 by decide_it.
  assert (0 ≤ default 0 (user_items sample_cart_ab 7 !! "c")) as H2 by decide_it.
  repeat (split; [assumption|]).
  exact (increase_then_decrease sample_clock sample_cart_ab 7 "c" H1 H2).
Defined.

Lemma update_cart_quantity_unknown_action_witness :
  store_ok sample_cart_ab ∧
  "reset" ≠ "increase" ∧
  "reset" ≠ "decrease" ∧
  result (update_cart_quantity sample_clock 7 "reset" "a") sample_cart_ab = Value None ∧
  view (after (update_cart_quantity sample_clock 7 "reset" "a") sample_cart_ab) =
    view sample_cart_ab.
Proof.
  assert (store_ok sample_cart_ab) as H1 by decide_it.
  assert ("reset" ≠ "increase") as H2 by decide_it.
  assert ("reset" ≠ "decrease") as H3 by decide_it.
  repeat (split; [assumption|]).
  exact (update_cart_quantity_unknown_action sample_clock sample_cart_ab 7 "reset" "a"
           H1 H2 H3).
Defined.

Lemma get_item_by_id_empty_means_absent_witness :
  Utils.get_item_by_id sample_menu_data "z" = Some (JObject []) ∧
  Utils.py_get (menu_item "c" "$7.00") "id" JNull ≠ Some (JString "z").
Proof.
  assert (Utils.get_item_by_id sample_menu_data "z" = Some (JObject [])) as H1
    by (vm_compute; reflexivity).
  split; [assumption|].
  refine (get_item_by_id_empty_means_absent sample_menu_data "z" _ "food" _
            (menu_item "c" "$7.00") H1 eq_refl _ _).
  - apply list_elem_of_further, list_elem_of_here.
  - eexists _, _. split; [reflexivity|]. split; [reflexivity|].
    apply list_elem_of_here.
Defined.

Lemma menu_lookups_total_witness :
  Utils.well_formed_menu sample_menu_data ∧
  is_Some (Utils.get_item_by_id sample_menu_data "c") ∧
  is_Some (Utils.get_category_by_item_id sample_menu_data "c").
Proof.
  assert (Utils.well_formed_menu sample_menu_data) as H1.
  { split; [by eexists|]. intros categories [= <-].
    eexists. split; [reflexivity|].
    repeat apply Forall_cons_2; try apply Forall_nil_2;
      (split; [by eexists|]); intros its [= <-];
      (eexists; split; [reflexivity|]);
      repeat apply Forall_cons_2; try apply Forall_nil_2; by eexists. }
  split; [assumption|].
  exact (menu_lookups_total sample_menu_data "c" H1).
Defined.

(** ** The callback router of [handlers.py] *)

Lemma starts_with_split p s :
  Handlers.starts_with p s = true → ∃ behind, s = (p ++ behind)%string.
Proof.
  revert s. induction p as [|a p IH]; intros s; cbn.
  - intros _. by exists s.
  - destruct s as [|b s]; [done|].
    intros [->%bool_decide_eq_true [behind ->]%IH]%andb_true_iff.
    by exists behind.
Qed.

Lemma remove_from_nothing old s :
  ¬ Handlers.occurs_in old s → Handlers.remove_from old 0 s = s.
Proof.
  induction s as [|a s IH]; intros Hnone; cbn; [done|].
  destruct (Handlers.starts_with old (String a s)) eqn:Hstart.
  - destruct Hnone. apply starts_with_split in Hstart as [behind ->].
    by exists EmptyString, behind.
  - f_equal. apply IH. intros (before & behind & ->).
    apply Hnone. by exists (String a before), behind.
Qed.

Lemma starts_with_app p s : Handlers.starts_with p (p +:+ s) = true.
Proof.
  induction p as [|a p IH]; [done|].
  change (String a p +:+ s) with (String a (p +:+ s)).
  cbn [Handlers.starts_with]. rewrite IH.
  by rewrite (bool_decide_eq_true_2 (a = a)).
Qed.

Lemma contains_unfold old s :
  Handlers.contains old s =
  Handlers.starts_with old s ||
  match s with
  | EmptyString => false
  | String _ s' => Handlers.contains old s'
  end.
Proof. by destruct s. Qed.

Lemma occurs_in_contains old s :
  Handlers.occurs_in old s → Handlers.contains old s = true.
Proof.
  intros (before & behind & ->).
  induction before as [|a before IH].
  - change (EmptyString +:+ old +:+ behind) with (old +:+ behind).
    by rewrite contains_unfold, starts_with_app.
  - change (String a before +:+ old +:+ behind)
      with (String a (before +:+ old +:+ behind)).
    rewrite contains_unfold, IH. apply orb_true_r.
Qed.

(** X25: The data of a category, item or order button always reaches the
    handler of its kind, whatever the key is, and the handler gets the key
    with every occurrence of the marker cut out by [str.replace]: on
    ["category_" + key], ["item_" + key] and ["order_" + key] the argument
    is the key itself exactly when the marker does not occur inside it. *)
Theorem callback_data_round_trip key :
  Handlers.handle_callback_query ("category_" +:+ key) =
    Handlers.CategorySelection (Handlers.remove_all "category_" key) ∧
  Handlers.handle_callback_query ("item_" +:+ key) =
    Handlers.ItemSelection (Handlers.remove_all "item_" key) ∧
  Handlers.handle_callback_query ("order_" +:+ key) =
    Handlers.OrderItem (Handlers.remove_all "order_" key) ∧
  (¬ Handlers.occurs_in "category_" key → Handlers.remove_all "category_" key = key) ∧
  (¬ Handlers.occurs_in "item_" key → Handlers.remove_all "item_" key = key) ∧
  (¬ Handlers.occurs_in "order_" key → Handlers.remove_all "order_" key = key).
Proof.
  split; [|split; [|split; [|repeat split; apply remove_from_nothing]]];
    unfold Handlers.handle_callback_query.
  - change (String.eqb ("category_" +:+ key) "main_menu") with false.
    change (Handlers.starts_with "category_" ("category_" +:+ key)) with true.
    reflexivity.
  - change (String.eqb ("item_" +:+ key) "main_menu") with false.
    change (Handlers.starts_with "category_" ("item_" +:+ key)) with false.
    change (Handlers.starts_with "item_" ("item_" +:+ key)) with true.
    reflexivity.
  - change (String.eqb ("order_" +:+ key) "main_menu") with false.
    change (Handlers.starts_with "category_" ("order_" +:+ key)) with false.
    change (Handlers.starts_with "item_" ("order_" +:+ key)) with false.
    change (String.eqb ("order_" +:+ key) "back_to_category") with false.
    change (String.eqb ("order_" +:+ key) "contact") with false.
    change (String.eqb ("order_" +:+ key) "location") with false.
    change (String.eqb ("order_" +:+ key) "order") with false.
    change (Handlers.starts_with "order_" ("order_" +:+ key)) with true.
    reflexivity.
Qed.

Lemma callback_data_round_trip_witness :
  ¬ Handlers.occurs_in "item_" "latte" ∧
  Handlers.handle_callback_query ("item_" +:+ "latte") =
    Handlers.ItemSelection (Handlers.remove_all "item_" "latte") ∧
  Handlers.remove_all "item_" "latte" = "latte".
Proof.
  assert (¬ Handlers.occurs_in "item_" "latte") as H1
    by (intros H%occurs_in_contains; vm_compute in H; discriminate H).
  split; [assumption|]. split.
  - exact (proj1 (proj2 (callback_data_round_trip "latte"))).
  - exact (proj1 (proj2 (proj2 (proj2 (proj2 (callback_data_round_trip "latte"))))) H1).
Defined.
